(** * PvP Wheel: the stake-weighted draw, the client session and its store calls

    A shallow embedding of the wheel game client:

    - [src/app/components/WheelGame.tsx], the React component: [COLORS],
      [addToLog], [addPlayer], [spinWheel] with its two timer callbacks, the
      auto-spin effect, [confirmGiftSelection];
    - the [useGameDatabase] hook: [getCurrentGame], [joinGameWithGifts],
      [completeGame], [addGameLog], [startGameCountdown], [getGameCountdown]
      and the countdown timer effect;
    - the other snapshot of the component, whose join handlers start the
      countdown themselves when the second player joins;
    - what the round view computes while rendering: the timer label, the
      chance listed beside a player, the gift popup with its tap, minus and
      select-all handlers, [handleGiftSelection], [getTotalGiftValue],
      [getFilteredHistory], the inventory value;
    - the participants as the hook's loaders transform them, and
      [formatTime] of the first version of the component.

    Conventions.

    - A JavaScript [number] that carries a stake is an exact rational [Q].
      The draw is written once over an abstract number type and is
      instantiated at [Q] and at binary64 floats.
    - React state is one record, [Client].  An event handler is a function
      of the state it closes over, in a small state-and-output monad whose
      output is the list of store calls ([dbHelpers.*]) it issues, in order.
      A handler runs to completion: what other handlers do while it awaits
      is not interleaved with it.
    - The result of an awaited store call is an argument of the handler
      ([lib/supabase], where [dbHelpers] lives, is not part of the sources).
    - [Date.now()] and [Math.random()] are arguments.
    - [alert], haptic feedback, [console.log] and the canvas are left out;
      which branch a handler took is its return value. *)

From Stdlib Require Import String Ascii ZArith QArith Qround Lqa Bool Lia PeanoNat.
From Stdlib Require Import DecimalString Floats List.
From Stdlib Require Import Permutation Sorted.
Import ListNotations.

Local Open Scope string_scope.
Local Open Scope list_scope.

(* ================================================================== *)
(** * Part I: definitions *)

(* ------------------------------------------------------------------ *)
(** ** The draw of [spinWheel], over an abstract number type *)

Section DrawEngine.
Context {A N : Type}.
Variables (zero hundred : N).
Variables (add mul div : N -> N -> N).
Variable leb : N -> N -> bool.
Variables (balanceOf giftValueOf : A -> N).

(** [activePlayers.reduce((sum, player) => sum + player.balance + player.giftValue, 0)] *)
Definition totalValueOf (activePlayers : list A) : N :=
  fold_left (fun sum player => add (add sum (balanceOf player)) (giftValueOf player))
            activePlayers zero.

(** [const playerValue = player.balance + player.giftValue] *)
Definition playerValueOf (player : A) : N := add (balanceOf player) (giftValueOf player).

(** The [for (const player of activePlayers)] loop.  [currentSum] is the
    running sum on entry; the loop breaks at the first player for whom
    [randomValue <= currentSum] holds once that player's value is added. *)
Fixpoint selectLoop (randomValue currentSum : N) (rest : list A) : option A :=
  match rest with
  | [] => None
  | player :: rest' =>
      let currentSum' := add currentSum (playerValueOf player) in
      if leb randomValue currentSum' then Some player
      else selectLoop randomValue currentSum' rest'
  end.

(** [const randomValue = Math.random() * totalValue] *)
Definition randomValueOf (activePlayers : list A) (rng : N) : N :=
  mul rng (totalValueOf activePlayers).

(** [selectedWinner] after the loop ([null] is [None]). *)
Definition selectWinnerOf (activePlayers : list A) (rng : N) : option A :=
  selectLoop (randomValueOf activePlayers rng) zero activePlayers.

(** [const winnerChance = (playerValue / totalValue) * 100] *)
Definition winnerChanceOf (activePlayers : list A) (selectedWinner : A) : N :=
  mul (div (playerValueOf selectedWinner) (totalValueOf activePlayers)) hundred.

(** The value of [currentSum] once the loop has consumed [consumed]. *)
Definition cumulativeFrom (start : N) (consumed : list A) : N :=
  fold_left (fun currentSum player => add currentSum (playerValueOf player)) consumed start.

End DrawEngine.

(* ------------------------------------------------------------------ *)
(** ** Data *)

Record TelegramUser := mkTelegramUser {
  tg_id : Z;
  first_name : string;
  username : option string;
  photo_url : option string
}.

(** [interface Player] *)
Record Player := mkPlayer {
  player_id : string;
  name : string;
  balance : Q;
  color : string;
  gifts : list string;
  giftValue : Q;
  telegramUser : option TelegramUser
}.

(** [GameLog["type"]] *)
Inductive LogType := LogJoin | LogSpin | LogWinner | LogInfo.

(** The template literals the handlers log, kept symbolic: the name and the
    amounts a message is built from, not its rendering. *)
Inductive Message :=
| MsgJoinedBalance (who : string) (amount : Z)
| MsgJoinedGifts (who : string) (totalGiftValue : Q)
| MsgAddedGifts (who : string) (totalGiftValue : Q)
| MsgNeedTwoPlayers
| MsgSpinning
| MsgWinner (who : string) (totalGiftValue : Q)
| MsgWon (totalGiftValue : Q).

(** [interface GameLog] *)
Record GameLog := mkGameLog {
  log_id : string;
  message : Message;
  timestamp : Z;
  log_type : LogType
}.

(** [interface MatchHistoryEntry] *)
Record MatchHistoryEntry := mkMatchHistoryEntry {
  entry_id : string;
  entry_rollNumber : Z;
  entry_timestamp : Z;
  entry_players : list Player;
  entry_winner : Player;
  totalPot : Q;
  winnerChance : Q
}.

(** [interface Gift] (the fields the handlers read) *)
Record Gift := mkGift {
  gift_id : string;
  emoji : string;
  gift_value : Q;
  gift_quantity : Z
}.

(** An entry of [selectedGifts]: [{ id, quantity }] *)
Record SelectedGift := mkSelectedGift {
  selected_id : string;
  selected_quantity : Z
}.

(** An entry of [giftSelections]: [{ giftId, quantity, totalValue }] *)
Record GiftSelection := mkGiftSelection {
  giftId : string;
  quantity : Z;
  selectionValue : Q
}.

(** The row [initializePlayer] stores in [currentPlayer]. *)
Record PlayerRow := mkPlayerRow { row_id : string }.

(** A [games] row as [getCurrentGame] reads it; [game_participants] is
    given already in the shape of [transformedPlayers]. *)
Record GameRow := mkGameRow {
  game_id : string;
  roll_number : Z;
  game_participants : list Player
}.

(** The [extraFields] object [completeGame] sends. *)
Record CompletionFields := mkCompletionFields {
  winner_id : string;
  winner_chance : Q;
  total_gift_value : Q;
  completed_at : Z
}.

(** The calls on [dbHelpers], with the arguments at the call site. *)
Inductive DbCall :=
| GetCurrentGame
| CreateGame (rollNumber : Z)
| JoinGame (gameId playerId : string) (giftSelections : list GiftSelection)
           (color : string) (positionIndex : nat)
| UpdatePlayerGifts (playerId giftId : string) (delta : Z)
| GetPlayerGifts (playerId : string)
| UpdateGameStatus (gameId status : string) (extra : CompletionFields)
| AddGameLog (gameId : string) (playerId : option string) (logType : LogType)
             (message : Message)
| GetMatchHistory
| StartGameCountdown (gameId : string) (seconds : Z)
| GetGameCountdown (gameId : string).

(** What an awaited store call came back with: [{ data }], [{ error }], or
    a rejected promise. *)
Inductive Resp (T : Type) :=
| Ok (data : T)
| Err (reason : string)
| Throws (reason : string).
Arguments Ok {T} data.
Arguments Err {T} reason.
Arguments Throws {T} reason.

(** [const COLORS = [...]] *)
Definition COLORS : list string :=
  [ "#FF6B6B"; "#4ECDC4"; "#45B7D1"; "#96CEB4"; "#FFEAA7";
    "#DDA0DD"; "#98D8C8"; "#F7DC6F"; "#BB8FCE"; "#85C1E9";
    "#F8C471"; "#82E0AA"; "#F1948A"; "#85929E"; "#D7BDE2" ].

Definition SPIN_DURATION : Z := 4000.
Definition COUNTDOWN_DURATION : Z := 60.

(** [COLORS[i]]: out of range is [undefined], which no caller reaches. *)
Definition colorAt (i : nat) : string := nth i COLORS "undefined".

(* ------------------------------------------------------------------ *)
(** ** JavaScript helpers *)

(** [n.toString()] for an integer, [Date.now().toString()] in the source. *)
Definition toString (z : Z) : string := NilZero.string_of_int (Z.to_int z).

(** Truthiness of a [string | null]: not null and not empty. *)
Definition truthy (s : option string) : bool :=
  match s with
  | Some s' => negb (s' =? "")
  | None => false
  end.

(** [a || b] on strings. *)
Definition orElse (a : option string) (b : string) : string :=
  match a with
  | Some s => if s =? "" then b else s
  | None => b
  end.

Definition isWhite (ch : ascii) : bool :=
  let n := nat_of_ascii ch in
  ((n =? 32) || ((9 <=? n) && (n <=? 13)))%nat.

Fixpoint trimStart (s : string) : string :=
  match s with
  | String ch rest => if isWhite ch then trimStart rest else s
  | EmptyString => EmptyString
  end.

Fixpoint trimEnd (s : string) : string :=
  match s with
  | String ch rest =>
      match trimEnd rest with
      | EmptyString => if isWhite ch then EmptyString else String ch EmptyString
      | rest' => String ch rest'
      end
  | EmptyString => EmptyString
  end.

(** [s.trim()], on ASCII white space. *)
Definition trim (s : string) : string := trimEnd (trimStart s).

Definition digitOf (ch : ascii) : option Z :=
  let n := nat_of_ascii ch in
  if ((48 <=? n) && (n <=? 57))%nat then Some (Z.of_nat (n - 48)) else None.

(** The leading decimal digits of [s], read left to right onto [acc]. *)
Fixpoint readDigits (s : string) (acc : option Z) : option Z :=
  match s with
  | String ch rest =>
      match digitOf ch with
      | Some d => readDigits rest (Some (10 * match acc with Some a => a | None => 0 end + d)%Z)
      | None => acc
      end
  | EmptyString => acc
  end.

(** [Number.parseInt(s)] in base ten: leading white space, an optional sign,
    then digits; [None] is [NaN].  (The [0x] prefix is not read as hex.) *)
Definition parseInt (s : string) : option Z :=
  match trimStart s with
  | String "-" rest => option_map Z.opp (readDigits rest None)
  | String "+" rest => readDigits rest None
  | s' => readDigits s' None
  end.

(* ------------------------------------------------------------------ *)
(** ** The draw at the two number types *)

(** The draw of the component, on [Player] records with exact stakes. *)
Definition totalValue (activePlayers : list Player) : Q :=
  totalValueOf 0%Q Qplus balance giftValue activePlayers.

Definition playerValue (player : Player) : Q :=
  playerValueOf Qplus balance giftValue player.

Definition randomValue (activePlayers : list Player) (rng : Q) : Q :=
  randomValueOf 0%Q Qplus Qmult balance giftValue activePlayers rng.

Definition selectWinner (activePlayers : list Player) (rng : Q) : option Player :=
  selectWinnerOf 0%Q Qplus Qmult Qle_bool balance giftValue activePlayers rng.


(** [currentSum] after the loop has gone through [consumed], from 0. *)
Definition cumulative (consumed : list Player) : Q :=
  cumulativeFrom Qplus balance giftValue 0%Q consumed.

(** [activePlayers.reduce((sum, player) => sum + player.giftValue, 0)] *)
Definition totalGiftValueOf (activePlayers : list Player) : Q :=
  fold_left (fun sum player => (sum + giftValue player)%Q) activePlayers 0%Q.

(** The same draw on binary64 stakes, as the JavaScript engine computes it. *)
Record FloatStake := mkFloatStake {
  stake_id : string;
  stake_balance : float;
  stake_giftValue : float
}.

Definition selectWinnerFloat (activePlayers : list FloatStake) (rng : float)
  : option FloatStake :=
  selectWinnerOf 0%float PrimFloat.add PrimFloat.mul PrimFloat.leb
                 stake_balance stake_giftValue activePlayers rng.

Definition winnerChanceFloat (activePlayers : list FloatStake) (w : FloatStake) : float :=
  winnerChanceOf 0%float 100%float PrimFloat.add PrimFloat.mul PrimFloat.div
                 stake_balance stake_giftValue activePlayers w.

(* ------------------------------------------------------------------ *)
(** ** Client state *)

(** What the [setTimeout(..., SPIN_DURATION)] callback of [spinWheel] closes
    over; the inner three-second callback closes over the same values. *)
Record SpinClosure := mkSpinClosure {
  sc_selectedWinner : option Player;
  sc_activePlayers : list Player;
  sc_totalValue : Q;
  sc_currentGameId : option string;
  sc_currentPlayer : option PlayerRow;
  sc_rollNumber : Z
}.

(** The state of [useGameDatabase] the component reads. *)
Record HookState := mkHookState {
  currentGameId : option string;
  currentPlayer : option PlayerRow;
  dbPlayers : list Player;
  gameCountdown : option Z;
  error : option string
}.

(** The form fields and the gift selection. *)
Record FormState := mkFormState {
  playerName : string;
  playerBalance : string;
  userInventory : list Gift;
  selectedGifts : list SelectedGift;
  showGiftPopup : bool;
  formTelegramUser : option TelegramUser
}.

(** The component state, the hook state, and the timers that are armed:
    [pendingSpin] holds the closures of the [SPIN_DURATION] timeouts not yet
    fired, [pendingReset] those of the three-second timeouts, oldest first. *)
Record Client := mkClient {
  hook : HookState;
  form : FormState;
  players : list Player;
  gameLog : list GameLog;
  isSpinning : bool;
  winner : option Player;
  showWinnerModal : bool;
  rollNumber : Z;
  matchHistory : list MatchHistoryEntry;
  pendingSpin : list SpinClosure;
  pendingReset : list SpinClosure
}.

Definition set_hook (v : HookState) (c : Client) : Client :=
  mkClient v (form c) (players c) (gameLog c) (isSpinning c) (winner c)
           (showWinnerModal c) (rollNumber c) (matchHistory c) (pendingSpin c) (pendingReset c).
Definition set_form (v : FormState) (c : Client) : Client :=
  mkClient (hook c) v (players c) (gameLog c) (isSpinning c) (winner c)
           (showWinnerModal c) (rollNumber c) (matchHistory c) (pendingSpin c) (pendingReset c).
Definition setPlayers (v : list Player) (c : Client) : Client :=
  mkClient (hook c) (form c) v (gameLog c) (isSpinning c) (winner c)
           (showWinnerModal c) (rollNumber c) (matchHistory c) (pendingSpin c) (pendingReset c).
Definition setGameLog (v : list GameLog) (c : Client) : Client :=
  mkClient (hook c) (form c) (players c) v (isSpinning c) (winner c)
           (showWinnerModal c) (rollNumber c) (matchHistory c) (pendingSpin c) (pendingReset c).
Definition setIsSpinning (v : bool) (c : Client) : Client :=
  mkClient (hook c) (form c) (players c) (gameLog c) v (winner c)
           (showWinnerModal c) (rollNumber c) (matchHistory c) (pendingSpin c) (pendingReset c).
Definition setWinner (v : option Player) (c : Client) : Client :=
  mkClient (hook c) (form c) (players c) (gameLog c) (isSpinning c) v
           (showWinnerModal c) (rollNumber c) (matchHistory c) (pendingSpin c) (pendingReset c).
Definition setShowWinnerModal (v : bool) (c : Client) : Client :=
  mkClient (hook c) (form c) (players c) (gameLog c) (isSpinning c) (winner c)
           v (rollNumber c) (matchHistory c) (pendingSpin c) (pendingReset c).
Definition setRollNumber (v : Z) (c : Client) : Client :=
  mkClient (hook c) (form c) (players c) (gameLog c) (isSpinning c) (winner c)
           (showWinnerModal c) v (matchHistory c) (pendingSpin c) (pendingReset c).
Definition setMatchHistory (v : list MatchHistoryEntry) (c : Client) : Client :=
  mkClient (hook c) (form c) (players c) (gameLog c) (isSpinning c) (winner c)
           (showWinnerModal c) (rollNumber c) v (pendingSpin c) (pendingReset c).
Definition set_pendingSpin (v : list SpinClosure) (c : Client) : Client :=
  mkClient (hook c) (form c) (players c) (gameLog c) (isSpinning c) (winner c)
           (showWinnerModal c) (rollNumber c) (matchHistory c) v (pendingReset c).
Definition set_pendingReset (v : list SpinClosure) (c : Client) : Client :=
  mkClient (hook c) (form c) (players c) (gameLog c) (isSpinning c) (winner c)
           (showWinnerModal c) (rollNumber c) (matchHistory c) (pendingSpin c) v.

Definition setCurrentGameId (v : option string) (c : Client) : Client :=
  set_hook (mkHookState v (currentPlayer (hook c)) (dbPlayers (hook c))
                        (gameCountdown (hook c)) (error (hook c))) c.
Definition setDbPlayers (v : list Player) (c : Client) : Client :=
  set_hook (mkHookState (currentGameId (hook c)) (currentPlayer (hook c)) v
                        (gameCountdown (hook c)) (error (hook c))) c.
Definition setGameCountdown (v : option Z) (c : Client) : Client :=
  set_hook (mkHookState (currentGameId (hook c)) (currentPlayer (hook c))
                        (dbPlayers (hook c)) v (error (hook c))) c.
Definition setError (v : option string) (c : Client) : Client :=
  set_hook (mkHookState (currentGameId (hook c)) (currentPlayer (hook c))
                        (dbPlayers (hook c)) (gameCountdown (hook c)) v) c.

Definition setPlayerName (v : string) (c : Client) : Client :=
  set_form (mkFormState v (playerBalance (form c)) (userInventory (form c))
                        (selectedGifts (form c)) (showGiftPopup (form c))
                        (formTelegramUser (form c))) c.
Definition setPlayerBalance (v : string) (c : Client) : Client :=
  set_form (mkFormState (playerName (form c)) v (userInventory (form c))
                        (selectedGifts (form c)) (showGiftPopup (form c))
                        (formTelegramUser (form c))) c.
Definition setUserInventory (v : list Gift) (c : Client) : Client :=
  set_form (mkFormState (playerName (form c)) (playerBalance (form c)) v
                        (selectedGifts (form c)) (showGiftPopup (form c))
                        (formTelegramUser (form c))) c.
Definition setSelectedGifts (v : list SelectedGift) (c : Client) : Client :=
  set_form (mkFormState (playerName (form c)) (playerBalance (form c))
                        (userInventory (form c)) v (showGiftPopup (form c))
                        (formTelegramUser (form c))) c.
Definition setShowGiftPopup (v : bool) (c : Client) : Client :=
  set_form (mkFormState (playerName (form c)) (playerBalance (form c))
                        (userInventory (form c)) (selectedGifts (form c)) v
                        (formTelegramUser (form c))) c.

(** The component as mounted: the [useState] initial values. *)
Definition initialClient : Client :=
  mkClient (mkHookState None None [] None None)
           (mkFormState "" "" [] [] false None)
           [] [] false None false 8343 [] [] [].

(* ------------------------------------------------------------------ *)
(** ** Handlers: state passing with the store calls as output *)

Definition Handler (R : Type) : Type := Client -> R * Client * list DbCall.

Definition ret {R} (r : R) : Handler R := fun c => (r, c, []).

Definition bind {R S} (m : Handler R) (k : R -> Handler S) : Handler S :=
  fun c =>
    let '(r, c1, out1) := m c in
    let '(s, c2, out2) := k r c1 in
    (s, c2, out1 ++ out2).

Definition update (f : Client -> Client) : Handler unit := fun c => (tt, f c, []).

Definition call (d : DbCall) : Handler unit := fun c => (tt, c, [d]).

Definition when (b : bool) (m : Handler unit) : Handler unit :=
  if b then m else ret tt.

Notation "x <- m ;; k" := (bind m (fun x => k))
  (at level 61, m at next level, right associativity).
Notation "m ;; k" := (bind m (fun _ => k))
  (at level 61, right associativity).

Definition resultOf {R} (out : R * Client * list DbCall) : R := fst (fst out).
Definition stateOf {R} (out : R * Client * list DbCall) : Client := snd (fst out).
Definition callsOf {R} (out : R * Client * list DbCall) : list DbCall := snd out.

(* ------------------------------------------------------------------ *)
(** ** The [useGameDatabase] hook *)

(** [addGameLog]: one insert; a failure is logged to the console only. *)
Definition addGameLog (gameId : string) (playerId : option string)
           (logType : LogType) (msg : Message) : Handler unit :=
  call (AddGameLog gameId playerId logType msg).

(** [startGameCountdown]: [dbHelpers.startGameCountdown(gameId, 60)]; the
    boolean it returns is ignored by every caller. *)
Definition startGameCountdown (gameId : string) : Handler unit :=
  call (StartGameCountdown gameId 60).

(** [getGameCountdown] *)
Definition getGameCountdown (gameId : string) (resp : Resp (option Z))
  : Handler (option Z) :=
  call (GetGameCountdown gameId) ;;
  match resp with
  | Ok timeLeft => update (setGameCountdown timeLeft) ;; ret timeLeft
  | Err _ | Throws _ => ret None
  end.

(** [getCurrentGame(rollNumber)]: [fetched] answers [dbHelpers.getCurrentGame()],
    [created] answers [dbHelpers.createGame(rollNumber)] when it is called. *)
Definition getCurrentGame (rollNumber : Z)
           (fetched : Resp (option GameRow)) (created : Resp GameRow)
  : Handler (option GameRow) :=
  call GetCurrentGame ;;
  match fetched with
  | Err _ => update (setError (Some "Failed to load current game")) ;; ret None
  | Throws _ => update (setError (Some "Failed to get current game")) ;; ret None
  | Ok (Some currentGame) =>
      update (setCurrentGameId (Some (game_id currentGame))) ;;
      update (setDbPlayers (game_participants currentGame)) ;;
      ret (Some currentGame)
  | Ok None =>
      if (negb (rollNumber =? 0) && (rollNumber >? 0))%Z then
        call (CreateGame rollNumber) ;;
        match created with
        | Err _ => update (setError (Some "Failed to create new game")) ;; ret None
        | Throws _ => update (setError (Some "Failed to get current game")) ;; ret None
        | Ok newGame =>
            update (setCurrentGameId (Some (game_id newGame))) ;;
            update (setDbPlayers []) ;;
            ret (Some newGame)
        end
      else ret None
  end.

(** The [for (const selection of giftSelections)] loop of [joinGameWithGifts]. *)
Fixpoint updateInventoryCalls (playerId : string) (giftSelections : list GiftSelection)
  : Handler unit :=
  match giftSelections with
  | [] => ret tt
  | selection :: rest =>
      call (UpdatePlayerGifts playerId (giftId selection) (- quantity selection)) ;;
      updateInventoryCalls playerId rest
  end.

(** [joinGameWithGifts]: returns the participant row, or [null] with the
    hook's [error] set; it never throws.  [joined] answers
    [dbHelpers.joinGame]; a rejection carries the message of its [Error]. *)
Definition joinGameWithGifts (gameId playerId : string)
           (giftSelections : list GiftSelection) (color : string) (positionIndex : nat)
           (joined : Resp string) : Handler (option string) :=
  if (gameId =? "") || (playerId =? "") || (length giftSelections =? 0)%nat then
    update (setError (Some "Failed to join game: Invalid parameters for joining game")) ;;
    ret None
  else
    call (JoinGame gameId playerId giftSelections color positionIndex) ;;
    match joined with
    | Err reason =>
        update (setError (Some (String.append "Failed to join game: "
                                  (orElse (Some reason) "Unknown database error")))) ;;
        ret None
    | Throws reason =>
        update (setError (Some (String.append "Failed to join game: " reason))) ;;
        ret None
    | Ok participant =>
        updateInventoryCalls playerId giftSelections ;;
        call (GetPlayerGifts playerId) ;;
        ret (Some participant)
    end.

(** [completeGame(gameId, winnerId, winnerChance, totalGiftValue)]: [updated]
    answers [dbHelpers.updateGameStatus], [logged] the winner log insert. *)
Definition completeGame (gameId winnerId : string) (winnerChance totalGiftValue : Q)
           (now : Z) (updated : Resp GameRow) (logged : Resp unit)
  : Handler (option GameRow) :=
  call (UpdateGameStatus gameId "completed"
          (mkCompletionFields winnerId winnerChance totalGiftValue now)) ;;
  match updated with
  | Err _ | Throws _ =>
      update (setError (Some "Failed to complete game")) ;; ret None
  | Ok completedGame =>
      call (AddGameLog gameId (Some winnerId) LogWinner (MsgWon totalGiftValue)) ;;
      match logged with
      | Throws _ => update (setError (Some "Failed to complete game")) ;; ret None
      | Ok _ | Err _ => ret (Some completedGame)
      end
  end.

(** [loadMatchHistory]: one read; its result only feeds [dbMatchHistory]. *)
Definition loadMatchHistory : Handler unit := call GetMatchHistory.

(** [loadGameParticipants]: what it does to the hook state once the query
    has answered. *)
Definition loadGameParticipants (loaded : Resp (list Player)) : Handler unit :=
  match loaded with
  | Ok transformedPlayers => update (setDbPlayers transformedPlayers)
  | Err _ | Throws _ => ret tt
  end.

(** The countdown timer effect arms its one-second interval exactly when
    [currentGameId && dbPlayers.length >= 2]. *)
Definition countdownIntervalArmed (c : Client) : bool :=
  truthy (currentGameId (hook c)) && (2 <=? length (dbPlayers (hook c)))%nat.

(** One tick of that interval. *)
Definition countdownTick (resp : Resp (option Z)) : Handler unit :=
  fun c =>
    match currentGameId (hook c) with
    | Some gameId =>
        if countdownIntervalArmed c then
          (timeLeft <- getGameCountdown gameId resp ;;
           match timeLeft with
           | Some t => when (t <=? 0)%Z (update (setGameCountdown (Some 0%Z)))
           | None => ret tt
           end) c
        else ret tt c
    | None => ret tt c
    end.

(* ------------------------------------------------------------------ *)
(** ** The component: log, joins *)

(** [addToLog]: [setGameLog((prev) => [newLog, ...prev.slice(0, 19)])] *)
Definition addToLog (now : Z) (msg : Message) (type : LogType) : Handler unit :=
  update (fun c => setGameLog (mkGameLog (toString now) msg now type
                                 :: firstn 19 (gameLog c)) c).

(** Which way a join handler returned. *)
Inductive JoinOutcome :=
| Joined
| AddedGifts
| InvalidInput
| NameExists
| RoundFull
| NoGiftsSelected
| NoName
| GameUnavailable.

(** [!balance || balance < 1 || balance > 10000] *)
Definition badBalance (balance : option Z) : bool :=
  match balance with
  | None => true
  | Some b => ((b =? 0) || (b <? 1) || (b >? 10000))%Z
  end.

(** [["🎁", "💎", "⭐"].slice(0, Math.floor(Math.random() * 3) + 1)] *)
Definition randomGifts (rnd : Q) : list string :=
  firstn (Z.to_nat (Qfloor (rnd * 3) + 1)) ["🎁"; "💎"; "⭐"].

(** [addPlayer].  [startsCountdown] tells the two snapshots of the component
    apart: only one of them ends with
    [if (players.length === 1 && currentGameId) startGameCountdown(currentGameId)].
    [rnd1] and [rnd2] are the two [Math.random()] draws of [newPlayer]. *)
Definition addPlayer (startsCountdown : bool) (now : Z) (rnd1 rnd2 : Q)
  : Handler JoinOutcome :=
  fun c =>
    let name' := trim (playerName (form c)) in
    let balance := parseInt (playerBalance (form c)) in
    if (name' =? "") || badBalance balance then (InvalidInput, c, [])
    else if existsb (fun p => name p =? name') (players c) then (NameExists, c, [])
    else if (15 <=? length (players c))%nat then (RoundFull, c, [])
    else
      let amount := match balance with Some b => b | None => 0%Z end in
      let newPlayer :=
        mkPlayer (toString now) name' (inject_Z amount)
                 (colorAt (length (players c) mod length COLORS))
                 (randomGifts rnd1) (rnd2 * 0.5 + 0.1)%Q None in
      (update (fun prev => setPlayers (players prev ++ [newPlayer]) prev) ;;
       addToLog now (MsgJoinedBalance name' amount) LogJoin ;;
       update (setPlayerName "") ;;
       update (setPlayerBalance "") ;;
       when startsCountdown
            (match currentGameId (hook c) with
             | Some gameId =>
                 when ((length (players c) =? 1)%nat && truthy (Some gameId))
                      (startGameCountdown gameId)
             | None => ret tt
             end) ;;
       ret Joined) c.

(** What the [selectedGifts.forEach] of [confirmGiftSelection] accumulates. *)
Record GiftTally := mkGiftTally {
  selectedGiftEmojis : list string;
  totalGiftValue : Q;
  giftSelections : list GiftSelection
}.

Definition tallyStep (inventory : list Gift) (acc : GiftTally) (selected : SelectedGift)
  : GiftTally :=
  match find (fun g => gift_id g =? selected_id selected) inventory with
  | Some gift =>
      let selectionValue := (gift_value gift * inject_Z (selected_quantity selected))%Q in
      mkGiftTally
        (selectedGiftEmojis acc ++ repeat (emoji gift) (Z.to_nat (selected_quantity selected)))
        (totalGiftValue acc + selectionValue)%Q
        (giftSelections acc
           ++ [mkGiftSelection (gift_id gift) (selected_quantity selected) selectionValue])
  | None => acc
  end.

Definition tallyGifts (inventory : list Gift) (selected : list SelectedGift) : GiftTally :=
  fold_left (tallyStep inventory) selected (mkGiftTally [] 0%Q []).

(** [telegramUser ? telegramUser.username || telegramUser.first_name ||
    `User${telegramUser.id}` : playerName.trim()] *)
Definition joinName (c : Client) : string :=
  match formTelegramUser (form c) with
  | Some u =>
      orElse (username u)
             (orElse (Some (first_name u)) (String.append "User" (toString (tg_id u))))
  | None => trim (playerName (form c))
  end.

(** The [if (currentPlayer) { try { ... } catch { ... } }] block of
    [confirmGiftSelection].  [false] is one of its two early [return]s
    (no game could be found or created); [true] lets the local logic run,
    whether the store accepted the join or not. *)
Definition joinInDatabase (c0 : Client) (name' : string) (tally : GiftTally)
           (fetched : Resp (option GameRow)) (created : Resp GameRow)
           (joined : Resp string) : Handler bool :=
  match currentPlayer (hook c0) with
  | None => ret true
  | Some me =>
      gameId <- (if truthy (currentGameId (hook c0)) then ret (currentGameId (hook c0))
                 else game <- getCurrentGame (rollNumber c0) fetched created ;;
                      ret (option_map game_id game)) ;;
      match gameId with
      | None => ret false
      | Some gameId' =>
          if gameId' =? "" then ret false
          else
            participant <- joinGameWithGifts gameId' (row_id me) (giftSelections tally)
                             (colorAt (length (players c0) mod length COLORS))
                             (length (players c0)) joined ;;
            match participant with
            | Some _ =>
                addGameLog gameId' (Some (row_id me)) LogJoin
                           (MsgJoinedGifts name' (totalGiftValue tally)) ;;
                ret true
            | None => ret true
            end
      end
  end.

(** The [setUserInventory((prev) => prev.map(...))] at the end. *)
Definition reduceInventory (selected : list SelectedGift) (inventory : list Gift)
  : list Gift :=
  map (fun gift =>
         match find (fun s => selected_id s =? gift_id gift) selected with
         | Some s => mkGift (gift_id gift) (emoji gift) (gift_value gift)
                            (gift_quantity gift - selected_quantity s)
         | None => gift
         end) inventory.

(** [confirmGiftSelection]; [startsCountdown] as for [addPlayer]. *)
Definition confirmGiftSelection (startsCountdown : bool) (now : Z)
           (fetched : Resp (option GameRow)) (created : Resp GameRow)
           (joined : Resp string) : Handler JoinOutcome :=
  fun c =>
    if (length (selectedGifts (form c)) =? 0)%nat then (NoGiftsSelected, c, [])
    else
      let name' := joinName c in
      if name' =? "" then (NoName, c, [])
      else if (15 <=? length (players c))%nat then (RoundFull, c, [])
      else
        let tally := tallyGifts (userInventory (form c)) (selectedGifts (form c)) in
        (proceed <- joinInDatabase c name' tally fetched created joined ;;
         if negb proceed then ret GameUnavailable
         else
           outcome <-
             (match find (fun p => name p =? name') (players c) with
              | Some _ =>
                  update (fun prev =>
                    setPlayers
                      (map (fun player =>
                              if name player =? name' then
                                mkPlayer (player_id player) (name player) (balance player)
                                         (color player)
                                         (gifts player ++ selectedGiftEmojis tally)
                                         (giftValue player + totalGiftValue tally)%Q
                                         (telegramUser player)
                              else player) (players prev)) prev) ;;
                  addToLog now (MsgAddedGifts name' (totalGiftValue tally)) LogJoin ;;
                  ret AddedGifts
              | None =>
                  let newPlayer :=
                    mkPlayer (toString now) name' 0%Q
                             (colorAt (length (players c) mod length COLORS))
                             (selectedGiftEmojis tally) (totalGiftValue tally)
                             (formTelegramUser (form c)) in
                  update (fun prev => setPlayers (players prev ++ [newPlayer]) prev) ;;
                  addToLog now (MsgJoinedGifts name' (totalGiftValue tally)) LogJoin ;;
                  when startsCountdown
                       (match currentGameId (hook c) with
                        | Some gameId =>
                            when ((length (players c) =? 1)%nat && truthy (Some gameId))
                                 (startGameCountdown gameId)
                        | None => ret tt
                        end) ;;
                  ret Joined
              end) ;;
           update (fun prev =>
                     setUserInventory
                       (reduceInventory (selectedGifts (form c)) (userInventory (form prev)))
                       prev) ;;
           update (setSelectedGifts []) ;;
           update (setShowGiftPopup false) ;;
           ret outcome) c.

(* ------------------------------------------------------------------ *)
(** ** The component: the spin *)

(** [dbPlayers.length > 0 ? dbPlayers : players] *)
Definition activePlayersOf (dbPlayers' players' : list Player) : list Player :=
  if (0 <? length dbPlayers')%nat then dbPlayers' else players'.

(** Which way [spinWheel] returned. *)
Inductive SpinOutcome :=
| NotEnoughPlayers
| AlreadySpinning
| SpinStarted (selectedWinner : option Player).

(** [spinWheel], up to the [setTimeout] it arms.  [dbPlayers] is not among
    the dependencies of its [useCallback], so the list it reads is the one of
    the render that last rebuilt the callback: [closureDbPlayers].  Every
    other value it reads is a dependency and is read from the state. *)
Definition spinWheel (closureDbPlayers : list Player) (now : Z) (rng : Q)
  : Handler SpinOutcome :=
  fun c =>
    let activePlayers := activePlayersOf closureDbPlayers (players c) in
    if (length activePlayers <? 2)%nat then
      (addToLog now MsgNeedTwoPlayers LogInfo ;; ret NotEnoughPlayers) c
    else if isSpinning c then (AlreadySpinning, c, [])
    else
      let selectedWinner := selectWinner activePlayers rng in
      (update (setIsSpinning true) ;;
       addToLog now MsgSpinning LogSpin ;;
       match currentGameId (hook c) with
       | Some gameId => when (truthy (Some gameId)) (addGameLog gameId None LogSpin MsgSpinning)
       | None => ret tt
       end ;;
       update (fun c' =>
                 set_pendingSpin
                   (pendingSpin c'
                      ++ [mkSpinClosure selectedWinner activePlayers (totalValue activePlayers)
                                        (currentGameId (hook c)) (currentPlayer (hook c))
                                        (rollNumber c)]) c') ;;
       ret (SpinStarted selectedWinner)) c.

(** The body of the [setTimeout(..., SPIN_DURATION)] callback for one closure. *)
Definition settle (cl : SpinClosure) (now : Z) (updated : Resp GameRow) (logged : Resp unit)
  : Handler unit :=
  match sc_selectedWinner cl with
  | Some selectedWinner =>
      let totalGiftValue' := totalGiftValueOf (sc_activePlayers cl) in
      let winnerChance' :=
        (playerValue selectedWinner / sc_totalValue cl * 100)%Q in
      match sc_currentGameId cl, sc_currentPlayer cl with
      | Some gameId, Some me =>
          when (truthy (Some gameId))
               (completeGame gameId (row_id me) winnerChance' totalGiftValue'
                             now updated logged ;;
                addGameLog gameId (Some (row_id me)) LogWinner
                           (MsgWinner (name selectedWinner) totalGiftValue') ;;
                loadMatchHistory)
      | _, _ => ret tt
      end ;;
      update (fun prev =>
                setMatchHistory
                  (mkMatchHistoryEntry (toString now) (sc_rollNumber cl) now
                                       (sc_activePlayers cl) selectedWinner
                                       totalGiftValue' winnerChance'
                     :: matchHistory prev) prev) ;;
      update (setWinner (Some selectedWinner)) ;;
      update (setShowWinnerModal true) ;;
      addToLog now (MsgWinner (name selectedWinner) totalGiftValue') LogWinner ;;
      update (fun prev => setRollNumber (rollNumber prev + 1)%Z prev)
  | None => ret tt
  end ;;
  update (fun c' => set_pendingReset (pendingReset c' ++ [cl]) c').

(** The oldest [SPIN_DURATION] timeout fires. *)
Definition onSpinTimeout (now : Z) (updated : Resp GameRow) (logged : Resp unit)
  : Handler unit :=
  fun c =>
    match pendingSpin c with
    | [] => ret tt c
    | cl :: rest => (update (set_pendingSpin rest) ;; settle cl now updated logged) c
    end.

(** The oldest three-second timeout fires. *)
Definition onResetTimeout (fetched : Resp (option GameRow)) (created : Resp GameRow)
  : Handler unit :=
  fun c =>
    match pendingReset c with
    | [] => ret tt c
    | cl :: rest =>
        (update (set_pendingReset rest) ;;
         update (setIsSpinning false) ;;
         update (setPlayers []) ;;
         update (setWinner None) ;;
         update (setShowWinnerModal false) ;;
         match sc_currentPlayer cl with
         | Some _ => _ <- getCurrentGame (sc_rollNumber cl + 1)%Z fetched created ;; ret tt
         | None => ret tt
         end) c
    end.

(** [gameCountdown === 0] *)
Definition countdownIsZero (c : Client) : bool :=
  match gameCountdown (hook c) with
  | Some t => (t =? 0)%Z
  | None => false
  end.

(** The guard of the auto-spin effect:
    [gameCountdown === 0 && !isSpinning && activePlayers.length >= 2]. *)
Definition autoSpinGuard (c : Client) : bool :=
  countdownIsZero c && negb (isSpinning c)
  && (2 <=? length (activePlayersOf (dbPlayers (hook c)) (players c)))%nat.

(** One run of the auto-spin effect; [None] when the guard fails. *)
Definition autoSpinEffect (closureDbPlayers : list Player) (now : Z) (rng : Q)
  : Handler (option SpinOutcome) :=
  fun c =>
    if autoSpinGuard c then
      (outcome <- spinWheel closureDbPlayers now rng ;; ret (Some outcome)) c
    else (None, c, []).

(** The effect that mirrors [dbPlayers] into [players]. *)
Definition syncPlayersEffect : Handler unit :=
  fun c =>
    if (0 <? length (dbPlayers (hook c)))%nat then update (setPlayers (dbPlayers (hook c))) c
    else ret tt c.

(* ------------------------------------------------------------------ *)
(** ** The event loop of one client *)

Definition setCurrentPlayer (v : option PlayerRow) (c : Client) : Client :=
  set_hook (mkHookState (currentGameId (hook c)) v (dbPlayers (hook c))
                        (gameCountdown (hook c)) (error (hook c))) c.
Definition setTelegramUser (v : option TelegramUser) (c : Client) : Client :=
  set_form (mkFormState (playerName (form c)) (playerBalance (form c))
                        (userInventory (form c)) (selectedGifts (form c))
                        (showGiftPopup (form c)) v) c.

(** What can happen to a mounted component: input, a store answer arriving,
    an effect running after a render, a timer firing. *)
Inductive Event :=
| EvTelegramUser (user : TelegramUser)
| EvPlayerInitialized (row : PlayerRow)
| EvTypeName (text : string)
| EvTypeBalance (text : string)
| EvInventory (inventory : list Gift)
| EvSelectGifts (selected : list SelectedGift)
| EvAddPlayer (now : Z) (rnd1 rnd2 : Q)
| EvConfirmGiftSelection (now : Z) (fetched : Resp (option GameRow))
                         (created : Resp GameRow) (joined : Resp string)
| EvGameReloaded (fetched : Resp (option GameRow)) (created : Resp GameRow)
| EvParticipantsLoaded (loaded : Resp (list Player))
| EvSyncPlayers
| EvCountdownTick (resp : Resp (option Z))
| EvAutoSpin (closureDbPlayers : list Player) (now : Z) (rng : Q)
| EvSpinTimeout (now : Z) (updated : Resp GameRow) (logged : Resp unit)
| EvResetTimeout (fetched : Resp (option GameRow)) (created : Resp GameRow).

Definition forget {R} (m : Handler R) : Handler unit := _ <- m ;; ret tt.

(** The handler an event runs. *)
Definition handle (startsCountdown : bool) (ev : Event) : Handler unit :=
  match ev with
  | EvTelegramUser user => update (setTelegramUser (Some user))
  | EvPlayerInitialized row => update (setCurrentPlayer (Some row))
  | EvTypeName text => update (setPlayerName text)
  | EvTypeBalance text => update (setPlayerBalance text)
  | EvInventory inventory => update (setUserInventory inventory)
  | EvSelectGifts selected => update (setSelectedGifts selected)
  | EvAddPlayer now rnd1 rnd2 => forget (addPlayer startsCountdown now rnd1 rnd2)
  | EvConfirmGiftSelection now fetched created joined =>
      forget (confirmGiftSelection startsCountdown now fetched created joined)
  | EvGameReloaded fetched created => forget (getCurrentGame 0 fetched created)
  | EvParticipantsLoaded loaded => loadGameParticipants loaded
  | EvSyncPlayers => syncPlayersEffect
  | EvCountdownTick resp => countdownTick resp
  | EvAutoSpin closureDbPlayers now rng => forget (autoSpinEffect closureDbPlayers now rng)
  | EvSpinTimeout now updated logged => onSpinTimeout now updated logged
  | EvResetTimeout fetched created => onResetTimeout fetched created
  end.

(** A spin that got past both guards of [spinWheel]: the roll number the
    client showed, the game it held, and what the draw selected. *)
Record Attempt := mkAttempt {
  attempt_rollNumber : Z;
  attempt_gameId : option string;
  attempt_selected : option Player
}.

(** The attempt an event makes in state [c], if any. *)
Definition attemptOf (ev : Event) (c : Client) : option Attempt :=
  match ev with
  | EvAutoSpin closureDbPlayers now rng =>
      match resultOf (autoSpinEffect closureDbPlayers now rng c) with
      | Some (SpinStarted selectedWinner) =>
          Some (mkAttempt (rollNumber c) (currentGameId (hook c)) selectedWinner)
      | _ => None
      end
  | _ => None
  end.

Definition optList {T} (o : option T) : list T :=
  match o with Some x => [x] | None => [] end.

(** The client after a sequence of events. *)
Fixpoint runClient (startsCountdown : bool) (evs : list Event) (c : Client) : Client :=
  match evs with
  | [] => c
  | ev :: rest => runClient startsCountdown rest (stateOf (handle startsCountdown ev c))
  end.

(** The store calls it issued on the way, in order. *)
Fixpoint callsOfRun (startsCountdown : bool) (evs : list Event) (c : Client) : list DbCall :=
  match evs with
  | [] => []
  | ev :: rest =>
      callsOf (handle startsCountdown ev c)
        ++ callsOfRun startsCountdown rest (stateOf (handle startsCountdown ev c))
  end.

(** The spin attempts it made on the way, in order. *)
Fixpoint attemptsOfRun (startsCountdown : bool) (evs : list Event) (c : Client)
  : list Attempt :=
  match evs with
  | [] => []
  | ev :: rest =>
      optList (attemptOf ev c)
        ++ attemptsOfRun startsCountdown rest (stateOf (handle startsCountdown ev c))
  end.


(* ------------------------------------------------------------------ *)
(** ** Several clients on one game *)









(** The identifiers a list of calls sends as [winner_id]. *)
Definition writtenWinnerIds (calls : list DbCall) : list string :=
  flat_map (fun d => match d with
                     | UpdateGameStatus _ _ extra => [winner_id extra]
                     | _ => []
                     end) calls.

Definition isStartCountdown (d : DbCall) : bool :=
  match d with StartGameCountdown _ _ => true | _ => false end.

Definition isRemoteWrite (d : DbCall) : bool :=
  match d with
  | CreateGame _ | JoinGame _ _ _ _ _ | UpdatePlayerGifts _ _ _
  | UpdateGameStatus _ _ _ | AddGameLog _ _ _ _ | StartGameCountdown _ _ => true
  | GetCurrentGame | GetPlayerGifts _ | GetMatchHistory | GetGameCountdown _ => false
  end.

(* ------------------------------------------------------------------ *)
(** ** Vocabulary of the statements *)

(** What the spin guards read and the timers write. *)
Definition session (c : Client) : bool * Z * list SpinClosure * list SpinClosure :=
  (isSpinning c, rollNumber c, pendingSpin c, pendingReset c).

(** No spin under way and no timer armed. *)
Definition quiescent (c : Client) : Prop :=
  isSpinning c = false /\ pendingSpin c = [] /\ pendingReset c = [].

Definition isJoined (o : JoinOutcome) : bool :=
  match o with Joined => true | _ => false end.

(** The join that takes the local list from one player to two, on a client
    that holds a game id. *)
Definition secondJoinWithGame (c : Client) : bool :=
  (length (players c) =? 1)%nat && truthy (currentGameId (hook c)).

(** The calls [if (players.length === 1 && currentGameId)
    startGameCountdown(currentGameId)] issues in state [c]. *)
Definition secondJoinCalls (c : Client) : list DbCall :=
  match currentGameId (hook c) with
  | Some gameId => if secondJoinWithGame c then [StartGameCountdown gameId 60] else []
  | None => []
  end.

Definition hasWinner (a : Attempt) : Prop := attempt_selected a <> None.

(** What [confirmGiftSelection] does to an existing player of that name. *)
Definition addGiftsTo (name' : string) (tally : GiftTally) (player : Player) : Player :=
  if name player =? name' then
    mkPlayer (player_id player) (name player) (balance player) (color player)
             (gifts player ++ selectedGiftEmojis tally)
             (giftValue player + totalGiftValue tally)%Q (telegramUser player)
  else player.

(** A handler that writes hook state only, keeps [currentPlayer], and
    starts no countdown. *)
Definition hookOnly {R} (m : Handler R) : Prop :=
  forall c,
    stateOf (m c) = set_hook (hook (stateOf (m c))) c /\
    currentPlayer (hook (stateOf (m c))) = currentPlayer (hook c) /\
    filter isStartCountdown (callsOf (m c)) = [].

(** A handler that does not read the hook's [error]: run with another error
    recorded, it returns the same value, issues the same calls, and leaves
    a state that differs in [error] at most. *)
Definition errBlind {R} (m : Handler R) : Prop :=
  forall c e,
    resultOf (m (setError e c)) = resultOf (m c) /\
    callsOf (m (setError e c)) = callsOf (m c) /\
    exists e', stateOf (m (setError e c)) = setError e' (stateOf (m c)).

(** The events of a round that is filling up: form input and joins.  None
    of them removes a player or replaces the local list. *)
Definition isJoinEvent (ev : Event) : bool :=
  match ev with
  | EvTelegramUser _ | EvPlayerInitialized _ | EvTypeName _ | EvTypeBalance _
  | EvInventory _ | EvSelectGifts _ | EvAddPlayer _ _ _
  | EvConfirmGiftSelection _ _ _ _ => true
  | _ => false
  end.


(** The events that are part of a spin: the auto-spin effect and the two
    timers. *)
Definition isSpinEvent (ev : Event) : bool :=
  match ev with
  | EvAutoSpin _ _ _ | EvSpinTimeout _ _ _ | EvResetTimeout _ _ => true
  | _ => false
  end.




(* ------------------------------------------------------------------ *)
(** ** Sample states and runs *)

Definition zeroStake (id' name' : string) : Player :=
  mkPlayer id' name' 0 "#FF6B6B" [] 0 None.

(** A client that only holds the given local players. *)
Definition clientWith (players' : list Player) : Client :=
  setPlayers players' initialClient.

(** Two participants of one game as [loadGameParticipants] delivers them:
    ann staked 10, bob staked 90, in join order. *)
Definition ann : Player :=
  mkPlayer "participant-ann" "ann" 0 "#FF6B6B" ["🎁"] 10 None.
Definition bob : Player :=
  mkPlayer "participant-bob" "bob" 0 "#4ECDC4" ["💎"] 90 None.

(** A client signed in as [me], holding game [game-1] with ann and bob
    loaded and the countdown at zero. *)
Definition clientOf (me : string) : Client :=
  setPlayers [ann; bob]
    (setGameCountdown (Some 0%Z)
       (setDbPlayers [ann; bob]
          (setCurrentPlayer (Some (mkPlayerRow me))
             (setCurrentGameId (Some "game-1") initialClient)))).

Definition game1 : GameRow := mkGameRow "game-1" 8343 [ann; bob].

(** The local log after [n] entries logged at times [n], ..., 1. *)
Fixpoint logOf (n : nat) : list GameLog :=
  match n with
  | O => []
  | S k => mkGameLog (toString (Z.of_nat n)) MsgSpinning (Z.of_nat n) LogInfo :: logOf k
  end.

(** ann and bob typed in and added as test players. *)
Definition twoJoins : list Event :=
  [ EvTypeName "ann"; EvTypeBalance "10"; EvAddPlayer 1 0.5 0.5;
    EvTypeName " bob "; EvTypeBalance "20"; EvAddPlayer 2 0.1 0.2 ].

(** Fifteen players named by their join index. *)
Fixpoint crowd (n : nat) : list Player :=
  match n with
  | O => []
  | S k => crowd k ++ [mkPlayer (toString (Z.of_nat k)) (toString (Z.of_nat k)) 1
                                (colorAt (k mod length COLORS)) [] 0 None]
  end.

(** A full round, with a valid sixteenth player typed into the form and a
    gift selected. *)
Definition fullRound : Client :=
  setSelectedGifts [mkSelectedGift "gift-1" 1]
    (setUserInventory [mkGift "gift-1" "🎁" 0.1 3]
       (setPlayerBalance "100" (setPlayerName "zed" (clientWith (crowd 15))))).

(** One local player, ann, and bob typed into the form; no game id. *)
Definition bobJoinsLocally : Client :=
  setPlayerBalance "20" (setPlayerName "bob" (clientWith [ann])).

(** The same with game-1 held. *)
Definition bobJoinsGame : Client := setCurrentGameId (Some "game-1") bobJoinsLocally.

(** bob, signed in on game-1 where ann is listed, with one gift selected. *)
Definition bobConfirmsGift : Client :=
  setSelectedGifts [mkSelectedGift "gift-1" 1]
    (setUserInventory [mkGift "gift-1" "💎" 0.5 3]
       (setPlayerName "bob"
          (setCurrentPlayer (Some (mkPlayerRow "player-bob"))
             (setCurrentGameId (Some "game-1") (clientWith [ann]))))).

(** ann's client through one round and into the next: the effect runs
    three times before the spin settles and once more after it; then the
    reset reloads the same game and the effect runs again. *)
Definition oneRoundAndMore : list Event :=
  [ EvAutoSpin [ann; bob] 1000 0.5;
    EvAutoSpin [ann; bob] 2000 0.1;
    EvCountdownTick (Ok (Some 0%Z));
    EvAutoSpin [ann; bob] 3000 0.9;
    EvSpinTimeout 5000 (Err "down") (Ok tt);
    EvAutoSpin [ann; bob] 6000 0.2;
    EvResetTimeout (Ok (Some game1)) (Err "down");
    EvSyncPlayers;
    EvAutoSpin [ann; bob] 9000 0.05;
    EvAutoSpin [ann; bob] 9500 0.7 ].



(* ------------------------------------------------------------------ *)
(** ** The component: what the round view shows *)

(** The label in the centre of the wheel:
    [activePlayers.length < 2 ? "Waiting" : isSpinning ? "Live" :
     gameCountdown !== null && gameCountdown > 0 ? `${gameCountdown}s` :
     gameCountdown === 0 ? "Spinning!" : "Ready GO!"]. *)
Inductive TimerStatus :=
| StatusWaiting
| StatusLive
| StatusNext (seconds : Z)
| StatusSpinning
| StatusReady.

Definition timerStatus (c : Client) : TimerStatus :=
  let activePlayers := activePlayersOf (dbPlayers (hook c)) (players c) in
  if (length activePlayers <? 2)%nat then StatusWaiting
  else if isSpinning c then StatusLive
  else match gameCountdown (hook c) with
       | Some t =>
           if (t >? 0)%Z then StatusNext t
           else if (t =? 0)%Z then StatusSpinning
           else StatusReady
       | None => StatusReady
       end.



(* ------------------------------------------------------------------ *)
(** ** The component: picking gifts *)

(** The updater of [handleGiftSelection(giftId, quantity)]. *)
Definition handleGiftSelection (giftId : string) (quantity : Z) (prev : list SelectedGift)
  : list SelectedGift :=
  match find (fun g => selected_id g =? giftId) prev with
  | Some _ =>
      if (quantity =? 0)%Z then filter (fun g => negb (selected_id g =? giftId)) prev
      else map (fun g => if selected_id g =? giftId
                         then mkSelectedGift (selected_id g) quantity
                         else g) prev
  | None =>
      if (quantity >? 0)%Z then prev ++ [mkSelectedGift giftId quantity] else prev
  end.

(** [getTotalGiftValue()] *)
Definition getTotalGiftValue (inventory : list Gift) (selected : list SelectedGift) : Q :=
  fold_left (fun total s =>
               total + match find (fun g => gift_id g =? selected_id s) inventory with
                       | Some gift => gift_value gift * inject_Z (selected_quantity s)
                       | None => 0
                       end)
            selected 0.

(** What [selectAllGifts] passes to [setSelectedGifts]. *)
Definition selectAllGifts (inventory : list Gift) : list SelectedGift :=
  map (fun gift => mkSelectedGift (gift_id gift) (gift_quantity gift))
      (filter (fun gift => (gift_quantity gift >? 0)%Z) inventory).

(** [selectedQuantity] of a gift card of the popup:
    [selected ? selected.quantity : 0]. *)
Definition selectedQuantity (gift : Gift) (selected : list SelectedGift) : Z :=
  match find (fun s => selected_id s =? gift_id gift) selected with
  | Some s => selected_quantity s
  | None => 0%Z
  end.

(** A tap on the card: one more of the gift, unless
    [selectedQuantity >= gift.quantity]. *)
Definition onGiftTap (gift : Gift) (prev : list SelectedGift) : list SelectedGift :=
  if (selectedQuantity gift prev <? gift_quantity gift)%Z then
    match find (fun s => selected_id s =? gift_id gift) prev with
    | Some _ =>
        map (fun s => if selected_id s =? gift_id gift
                      then mkSelectedGift (selected_id s) (selected_quantity s + 1)
                      else s) prev
    | None => prev ++ [mkSelectedGift (gift_id gift) 1]
    end
  else prev.

(** The minus button of the card: one less, and entries that reach zero
    are dropped. *)
Definition onGiftMinus (gift : Gift) (prev : list SelectedGift) : list SelectedGift :=
  filter (fun s => (selected_quantity s >? 0)%Z)
         (map (fun s => if selected_id s =? gift_id gift
                        then mkSelectedGift (selected_id s) (selected_quantity s - 1)
                        else s) prev).

(** What the user can do in the popup before confirming. *)
Inductive Pick :=
| PickTap (gift : Gift)
| PickMinus (gift : Gift)
| PickAll.

Definition pick (inventory : list Gift) (p : Pick) (prev : list SelectedGift)
  : list SelectedGift :=
  match p with
  | PickTap gift => onGiftTap gift prev
  | PickMinus gift => onGiftMinus gift prev
  | PickAll => selectAllGifts inventory
  end.

(** The selection after a sequence of picks, from the empty selection. *)
Definition picks (inventory : list Gift) (ps : list Pick) : list SelectedGift :=
  fold_left (fun prev p => pick inventory p prev) ps [].

(** The popup renders one card for each gift of
    [userInventory.filter(gift => gift.quantity > 0)]. *)
Definition cardsShown (inventory : list Gift) : list Gift :=
  filter (fun gift => (gift_quantity gift >? 0)%Z) inventory.

(* ------------------------------------------------------------------ *)
(** ** The component: the match history view *)


(** [Array.prototype.sort(compareFn)] for a comparator that is a
    difference of numeric keys.  The sort is stable, so its result is the
    stable ordering by the comparator, built here by insertion from the
    right: an element goes in front of the first one it does not exceed. *)
Section Sort.
Context {T : Type}.
Variable compareFn : T -> T -> Q.



End Sort.


(* ------------------------------------------------------------------ *)
(** ** The timer line of the first version of the component *)

(** [s.padStart(targetLength, padChar)] for a one-character pad. *)
Definition padStart (targetLength : nat) (padChar : ascii) (s : string) : string :=
  String.append
    (string_of_list_ascii (repeat padChar (targetLength - String.length s))) s.

(** [formatTime(ms)]: [Math.floor] is the floor, [%] the remainder that
    takes the sign of the dividend. *)
Definition formatTime (ms : Z) : string :=
  let totalSeconds := (ms / 1000)%Z in
  let minutes := (totalSeconds / 60)%Z in
  let seconds := Z.rem totalSeconds 60 in
  String.append (padStart 2 "0" (toString minutes))
                (String.append ":" (padStart 2 "0" (toString seconds))).

(* ------------------------------------------------------------------ *)
(** ** Vocabulary of the statements about gifts *)

(** The entry of a selection for a gift id, as [find] returns it. *)
Definition selectedEntry (giftId : string) (selected : list SelectedGift)
  : option SelectedGift :=
  find (fun s => selected_id s =? giftId) selected.

(** A selection that names each gift once, and of each gift a positive
    number that the inventory holds. *)
Definition withinStock (inventory : list Gift) (selected : list SelectedGift) : Prop :=
  NoDup (map selected_id selected) /\
  Forall (fun s => exists gift,
                     In gift inventory /\ gift_id gift = selected_id s /\
                     (0 < selected_quantity s <= gift_quantity gift)%Z) selected.

(** The picks the popup offers: taps and minus on the cards it shows. *)
Definition offered (inventory : list Gift) (p : Pick) : Prop :=
  match p with
  | PickTap gift | PickMinus gift => In gift (cardsShown inventory)
  | PickAll => True
  end.

(** The "Total Inventory Value" line of the gifts tab:
    [userInventory.reduce((sum, gift) => sum + gift.value * gift.quantity, 0)]. *)
Definition inventoryValue (inventory : list Gift) : Q :=
  fold_left (fun sum gift => sum + gift_value gift * inject_Z (gift_quantity gift))
            inventory 0.

(* ------------------------------------------------------------------ *)
(** ** Vocabulary of the statements about runs *)

(** A handler that leaves a part of the state as it was. *)
Definition keeps {T R} (part : Client -> T) (m : Handler R) : Prop :=
  forall c, part (stateOf (m c)) = part c.

(** The countdown and the local match history: what the joins, the store
    answers and the start of a spin leave alone. *)
Definition clockAndHistory (c : Client) : option Z * list MatchHistoryEntry :=
  (gameCountdown (hook c), matchHistory c).

(** The countdown is unset or not negative. *)
Definition countdownNotNegative (c : Client) : Prop :=
  match gameCountdown (hook c) with
  | Some t => (0 <= t)%Z
  | None => True
  end.

Definition isCountdownTick (ev : Event) : bool :=
  match ev with EvCountdownTick _ => true | _ => false end.



(** The roll numbers [first + n - 1], ..., [first]: newest first. *)
Fixpoint rollsFrom (first : Z) (n : nat) : list Z :=
  match n with
  | O => []
  | S k => (first + Z.of_nat k)%Z :: rollsFrom first k
  end.

(** At most one spin is in flight, and while its [SPIN_DURATION] timeout
    is armed, its closure holds the roll number the client shows. *)
Definition oneInFlight (c : Client) : Prop :=
  (isSpinning c = false /\ pendingSpin c = [] /\ pendingReset c = []) \/
  (exists cl, isSpinning c = true /\ pendingSpin c = [cl] /\ pendingReset c = [] /\
              sc_rollNumber cl = rollNumber c) \/
  (exists cl, isSpinning c = true /\ pendingSpin c = [] /\ pendingReset c = [cl]).

(* ------------------------------------------------------------------ *)
(** ** The hook: participants as the round view lists them *)

(** A row of [game_participant_gifts] as the two loaders read it:
    [giftEntry.quantity] and [giftEntry.gifts?.emoji]. *)
Record GiftEntryRow := mkGiftEntryRow {
  giftEntry_quantity : Z;
  giftEntry_emoji : option string
}.

(** The joined [players] row of a participant: the fields its name is
    taken from. *)
Record PlayersRow := mkPlayersRow {
  players_username : option string;
  players_first_name : option string
}.

(** The [gifts] array [getCurrentGame] and [loadGameParticipants] build
    for a participant: each entry's emoji, or the gift box when it has
    none, [quantity] times. *)
Definition participantGifts (game_participant_gifts : option (list GiftEntryRow))
  : list string :=
  match game_participant_gifts with
  | Some entries =>
      flat_map (fun giftEntry =>
                  repeat (orElse (giftEntry_emoji giftEntry) "🎁")
                         (Z.to_nat (giftEntry_quantity giftEntry)))
               entries
  | None => []
  end.

(** [participant.players?.username || participant.players?.first_name || 'Unknown'] *)
Definition participantName (players' : option PlayersRow) : string :=
  match players' with
  | Some row => orElse (players_username row) (orElse (players_first_name row) "Unknown")
  | None => "Unknown"
  end.



(** The same of the closure of a spin whose timeout is armed. *)
Definition closureOfADraw (cl : SpinClosure) : Prop :=
  (2 <= length (sc_activePlayers cl))%nat /\
  sc_totalValue cl = totalValue (sc_activePlayers cl) /\
  forall w, sc_selectedWinner cl = Some w -> In w (sc_activePlayers cl).

(* ------------------------------------------------------------------ *)
(** ** The games a client asks the store to create *)





(* ================================================================== *)
(** * Part II: properties *)

(* ------------------------------------------------------------------ *)
(** ** The loop, whatever the numbers are *)

Section DrawEngineFacts.
Context {A N : Type}.
Variables (add : N -> N -> N) (leb : N -> N -> bool).
Variables (balanceOf giftValueOf : A -> N).

Local Abbreviation loop := (selectLoop add leb balanceOf giftValueOf).
Local Abbreviation sumFrom := (cumulativeFrom add balanceOf giftValueOf).

(** The loop stops at the first position whose running sum reaches
    [randomValue]; nothing about the arithmetic is used. *)
Lemma selectLoop_first_hit (r : N) :
  forall rest currentSum w,
    loop r currentSum rest = Some w ->
    exists pre post,
      rest = pre ++ w :: post /\
      leb r (sumFrom currentSum (pre ++ [w])) = true /\
      forall k, (k < length pre)%nat ->
                leb r (sumFrom currentSum (firstn (S k) rest)) = false.
Proof.
  induction rest as [|p rest IH]; intros currentSum w Hsel; simpl in Hsel.
  - discriminate.
  - destruct (leb r (add currentSum (playerValueOf add balanceOf giftValueOf p))) eqn:Hle.
    + injection Hsel as <-. exists [], rest. simpl. repeat split; auto.
      intros k Hk. inversion Hk.
    + destruct (IH _ _ Hsel) as (pre & post & -> & Hhit & Hmiss).
      exists (p :: pre), post. repeat split.
      * exact Hhit.
      * intros [|k] Hk; simpl in *.
        -- exact Hle.
        -- apply (Hmiss k). lia.
Qed.

Lemma selectLoop_none (r : N) :
  forall rest currentSum,
    loop r currentSum rest = None ->
    forall k, (k < length rest)%nat ->
              leb r (sumFrom currentSum (firstn (S k) rest)) = false.
Proof.
  induction rest as [|p rest IH]; intros currentSum Hsel k Hk; simpl in *.
  - inversion Hk.
  - destruct (leb r (add currentSum (playerValueOf add balanceOf giftValueOf p))) eqn:Hle;
      [discriminate|].
    destruct k as [|k]; simpl; [exact Hle|]. apply IH; [exact Hsel|lia].
Qed.

Lemma selectLoop_In (r : N) :
  forall rest currentSum w, loop r currentSum rest = Some w -> In w rest.
Proof.
  intros rest currentSum w H.
  destruct (selectLoop_first_hit _ _ _ _ H) as (pre & post & -> & _).
  apply in_or_app. right. left. reflexivity.
Qed.

End DrawEngineFacts.

(* ------------------------------------------------------------------ *)
(** ** The draw on exact stakes *)

Lemma cumulativeFrom_Qeq (l : list Player) :
  forall s1 s2, s1 == s2 ->
    cumulativeFrom Qplus balance giftValue s1 l
    == totalValueOf s2 Qplus balance giftValue l.
Proof.
  induction l as [|p l IH]; intros s1 s2 Hs; simpl.
  - exact Hs.
  - apply IH. unfold playerValueOf. rewrite Hs. ring.
Qed.

Lemma cumulative_total (l : list Player) : cumulative l == totalValue l.
Proof. apply cumulativeFrom_Qeq. reflexivity. Qed.

Lemma cumulativeFrom_shift (l : list Player) :
  forall s, cumulativeFrom Qplus balance giftValue s l == s + cumulative l.
Proof.
  unfold cumulative.
  induction l as [|p l IH]; intros s; simpl.
  - ring.
  - rewrite IH. rewrite (IH (0 + _)). ring.
Qed.

Lemma cumulative_nonneg (l : list Player) :
  (forall p, In p l -> 0 <= playerValue p) -> 0 <= cumulative l.
Proof.
  induction l as [|p l IH]; intros Hpos.
  - unfold cumulative. simpl. lra.
  - unfold cumulative. simpl. rewrite cumulativeFrom_shift.
    assert (0 <= playerValue p) by (apply Hpos; left; reflexivity).
    assert (0 <= cumulative l) by (apply IH; intros q Hq; apply Hpos; right; exact Hq).
    unfold playerValue in *. lra.
Qed.

(** When the running sum ends at or above [r], the loop selects someone. *)
Lemma selectLoop_total (r : Q) :
  forall rest currentSum,
    rest <> [] ->
    r <= cumulativeFrom Qplus balance giftValue currentSum rest ->
    exists w, selectLoop Qplus Qle_bool balance giftValue r currentSum rest = Some w.
Proof.
  induction rest as [|p rest IH]; intros currentSum Hne Hle; [congruence|].
  simpl. destruct (Qle_bool r (currentSum + playerValueOf Qplus balance giftValue p)) eqn:Hhit.
  - eexists; reflexivity.
  - destruct rest as [|q rest'].
    + simpl in Hle. apply Qle_bool_iff in Hle. congruence.
    + apply IH; [discriminate|exact Hle].
Qed.

(** With stakes that are not negative and [0 <= rng <= 1], the draw always
    selects a winner. *)
Lemma selectWinner_total (activePlayers : list Player) (rng : Q) :
  activePlayers <> [] ->
  (forall p, In p activePlayers -> 0 <= playerValue p) ->
  0 <= rng <= 1 ->
  exists w, selectWinner activePlayers rng = Some w.
Proof.
  intros Hne Hpos Hrng. unfold selectWinner, selectWinnerOf.
  apply selectLoop_total; [exact Hne|].
  fold (cumulative activePlayers). unfold randomValueOf.
  fold (totalValue activePlayers). rewrite cumulative_total.
  pose proof (cumulative_nonneg _ Hpos) as Hc. rewrite cumulative_total in Hc.
  nra.
Qed.

Lemma selectWinner_In (activePlayers : list Player) (rng : Q) (w : Player) :
  selectWinner activePlayers rng = Some w -> In w activePlayers.
Proof. apply selectLoop_In. Qed.

(* ------------------------------------------------------------------ *)
(** ** C2: the draw walks the list in join order *)




(** The scenario of C2 as a binary64 engine computes it: the same winners
    and the chances 10 and 90 exactly. *)
#[warnings="-inexact-float"]
Lemma draw_scenario_binary64 :
  let first := mkFloatStake "first" 10 0 in
  let second := mkFloatStake "second" 90 0 in
  selectWinnerFloat [first; second] 0.05 = Some first /\
  winnerChanceFloat [first; second] first = 10%float /\
  selectWinnerFloat [first; second] 0.5 = Some second /\
  winnerChanceFloat [first; second] second = 90%float.
Proof. vm_compute. repeat split; reflexivity. Qed.

(* ------------------------------------------------------------------ *)
(** ** C7: what [spinWheel] refuses to draw from *)

(** Against C7 as stated: two participants whose weights are both zero make
    a pool of total weight 0, yet [spinWheel] starts the spin and its loop
    selects the first of them. *)
Lemma zero_total_still_selects_a_winner :
  let p := zeroStake "1" "ann" in
  let q := zeroStake "2" "bob" in
  totalValue [p; q] <= 0 /\
  resultOf (spinWheel [] 0 0.5 (clientWith [p; q])) = SpinStarted (Some p).
Proof. vm_compute. split; [discriminate|reflexivity]. Qed.

Lemma all_zero_total (l : list Player) :
  (forall p, In p l -> playerValue p == 0) -> totalValue l == 0.
Proof.
  intros Hz. rewrite <- cumulative_total. unfold cumulative.
  assert (forall s, cumulativeFrom Qplus balance giftValue s l == s) as H.
  { induction l as [|p l IH]; intros s; simpl; [reflexivity|].
    rewrite IH by (intros q Hq; apply Hz; right; exact Hq).
    fold (playerValue p). rewrite (Hz p) by (left; reflexivity). ring. }
  apply H.
Qed.

(** C7, amended.  [spinWheel] draws nothing when fewer than two participants
    are active, the empty list included: it logs the warning and returns
    with no spin started, no timer armed, no store call and no winner
    selected.  It has no check on the total weight: with two or more
    participants whose weights are all zero (total 0) and no spin under
    way, the first participant in join order is selected. *)
Theorem spinWheel_refuses_only_short_lists :
  (forall (closureDbPlayers : list Player) (now : Z) (rng : Q) (c : Client),
      (length (activePlayersOf closureDbPlayers (players c)) < 2)%nat ->
      let out := spinWheel closureDbPlayers now rng c in
      resultOf out = NotEnoughPlayers /\
      callsOf out = [] /\
      isSpinning (stateOf out) = isSpinning c /\
      pendingSpin (stateOf out) = pendingSpin c /\
      winner (stateOf out) = winner c /\
      matchHistory (stateOf out) = matchHistory c /\
      exists entry, gameLog (stateOf out) = entry :: firstn 19 (gameLog c)
                    /\ message entry = MsgNeedTwoPlayers)
  /\
  (forall (closureDbPlayers : list Player) (now : Z) (rng : Q) (c : Client),
      (2 <= length (activePlayersOf closureDbPlayers (players c)))%nat ->
      isSpinning c = false ->
      (forall p, In p (activePlayersOf closureDbPlayers (players c)) -> playerValue p == 0) ->
      totalValue (activePlayersOf closureDbPlayers (players c)) == 0 /\
      exists first rest,
        activePlayersOf closureDbPlayers (players c) = first :: rest /\
        resultOf (spinWheel closureDbPlayers now rng c) = SpinStarted (Some first)).
Proof.
  split.
  - intros closureDbPlayers now rng c Hshort out. subst out. unfold spinWheel.
    apply Nat.ltb_lt in Hshort. rewrite Hshort. cbn.
    repeat split; try reflexivity.
    eexists. split; reflexivity.
  - intros closureDbPlayers now rng c Hlen Hidle Hzero.
    split; [apply all_zero_total; exact Hzero|].
    pose proof (all_zero_total _ Hzero) as Htot.
    unfold spinWheel. rewrite Hidle.
    destruct (length (activePlayersOf closureDbPlayers (players c)) <? 2)%nat eqn:Hlt;
      [apply Nat.ltb_lt in Hlt; lia|].
    destruct (activePlayersOf closureDbPlayers (players c)) as [|first rest] eqn:Hact;
      [simpl in Hlen; lia|].
    exists first, rest. split; [reflexivity|].
    assert (Hsel : selectWinner (first :: rest) rng = Some first).
    { unfold selectWinner, selectWinnerOf, randomValueOf.
      fold (totalValue (first :: rest)). simpl.
      assert (Hhit : Qle_bool (rng * totalValue (first :: rest))
                       (0 + playerValueOf Qplus balance giftValue first) = true).
      { apply Qle_bool_iff. fold (playerValue first).
        rewrite Htot, (Hzero first) by (left; reflexivity). lra. }
      rewrite Hhit. reflexivity. }
    rewrite Hsel.
    destruct (currentGameId (hook c)) as [g|]; cbn;
      [destruct (negb (g =? "")); reflexivity|reflexivity].
Qed.

(** C7 amended, run on an empty pool and on a pool of two zero stakes. *)
Lemma spinWheel_refuses_only_short_lists_witness :
  resultOf (spinWheel [] 5 0.5 (clientWith [])) = NotEnoughPlayers /\
  exists first rest,
    activePlayersOf [] (players (clientWith [zeroStake "1" "ann"; zeroStake "2" "bob"]))
    = first :: rest /\
    resultOf (spinWheel [] 5 0.5 (clientWith [zeroStake "1" "ann"; zeroStake "2" "bob"]))
    = SpinStarted (Some first).
Proof.
  split.
  - apply (proj1 spinWheel_refuses_only_short_lists [] 5%Z 0.5 (clientWith [])).
    simpl. lia.
  - apply (proj2 spinWheel_refuses_only_short_lists [] 5%Z 0.5
                 (clientWith [zeroStake "1" "ann"; zeroStake "2" "bob"])).
    + simpl. lia.
    + reflexivity.
    + intros p [<-|[<-|[]]]; vm_compute; reflexivity.
Defined.

(* ------------------------------------------------------------------ *)
(** ** C1: the winner the settlement writes *)

(** Whatever the draw selected, the [winner_id] the settlement sends is the
    signed-in player's row id: [completeGame(currentGameId, currentPlayer.id, ...)]. *)
Lemma settle_writes_current_player (cl : SpinClosure) (w : Player) (g : string)
      (me : PlayerRow) (now : Z) (updated : Resp GameRow) (logged : Resp unit) (c : Client) :
  sc_selectedWinner cl = Some w ->
  sc_currentGameId cl = Some g -> g <> "" ->
  sc_currentPlayer cl = Some me ->
  writtenWinnerIds (callsOf (settle cl now updated logged c)) = [row_id me].
Proof.
  intros Hw Hg Hne Hme. unfold settle. rewrite Hw, Hg, Hme.
  assert (Ht : truthy (Some g) = true).
  { simpl. apply negb_true_iff. apply String.eqb_neq. exact Hne. }
  rewrite Ht. destruct updated as [row|m|m]; [destruct logged as [u|m|m]| |]; reflexivity.
Qed.

(** C1, on the code.  ann's client holds game-1 with ann (10) and bob (90);
    the countdown is at zero and [Math.random()] gives 0.5.  The draw
    selects bob and the local history records bob as winner, but the one
    [updateGameStatus] call sends ann's own player row as [winner_id]; run
    by a signed-in spectator, zed, the same events send zed's. *)
Theorem settlement_writes_the_signed_in_player_not_the_drawn_winner :
  let evs := [EvAutoSpin [ann; bob] 1000 0.5; EvSpinTimeout 5000 (Ok game1) (Ok tt)] in
  map attempt_selected (attemptsOfRun false evs (clientOf "player-ann")) = [Some bob] /\
  map entry_winner (matchHistory (runClient false evs (clientOf "player-ann"))) = [bob] /\
  writtenWinnerIds (callsOfRun false evs (clientOf "player-ann")) = ["player-ann"] /\
  writtenWinnerIds (callsOfRun false evs (clientOf "player-zed")) = ["player-zed"].
Proof. vm_compute. repeat split; reflexivity. Qed.

(* ------------------------------------------------------------------ *)
(** ** C9: the local log keeps twenty entries *)

(** Against C9 as stated: with twenty entries in the local log, logging one
    more drops the oldest. *)
Lemma twenty_first_entry_drops_the_oldest :
  let c := setGameLog (logOf 20) initialClient in
  let oldest := mkGameLog "1" MsgSpinning 1 LogInfo in
  In oldest (gameLog c) /\
  ~ In oldest (gameLog (stateOf (addToLog 21 MsgSpinning LogInfo c))).
Proof.
  vm_compute. split.
  - do 19 right. left. reflexivity.
  - intros H. repeat (destruct H as [H|H]; [discriminate H|]). exact H.
Qed.

Lemma nth_error_firstn_lt {T} (l : list T) :
  forall n i, (i < n)%nat -> nth_error (firstn n l) i = nth_error l i.
Proof.
  induction l as [|x l IH]; intros n i Hi.
  - rewrite firstn_nil. reflexivity.
  - destruct n as [|n]; [lia|]. destruct i as [|i]; simpl; [reflexivity|].
    apply IH. lia.
Qed.

(** C9, amended.  [addToLog] puts the new entry in front and keeps the
    nineteen most recent earlier entries, unchanged and in their order;
    older entries are dropped, so the local log never holds more than
    twenty.  While it holds fewer than twenty, no entry is lost.  It issues
    no store call; the hook's [addGameLog] issues one insert and touches no
    local state. *)
Theorem addToLog_keeps_the_latest_nineteen :
  forall (now : Z) (msg : Message) (type : LogType) (c : Client),
    let out := addToLog now msg type c in
    gameLog (stateOf out)
    = mkGameLog (toString now) msg now type :: firstn 19 (gameLog c) /\
    (length (gameLog (stateOf out)) <= 20)%nat /\
    (forall i, (i < 19)%nat ->
               nth_error (gameLog (stateOf out)) (S i) = nth_error (gameLog c) i) /\
    ((length (gameLog c) < 20)%nat ->
     forall e, In e (gameLog c) -> In e (gameLog (stateOf out))) /\
    callsOf out = [] /\
    (forall g p t m, addGameLog g p t m c = (tt, c, [AddGameLog g p t m])).
Proof.
  intros now msg type c out.
  assert (Hlog : gameLog (stateOf out)
                 = mkGameLog (toString now) msg now type :: firstn 19 (gameLog c))
    by reflexivity.
  rewrite Hlog. split; [reflexivity|]. split; [|split; [|split; [|split]]].
  - change (S (length (firstn 19 (gameLog c))) <= 20)%nat.
    rewrite length_firstn. lia.
  - intros i Hi. change (nth_error (firstn 19 (gameLog c)) i = nth_error (gameLog c) i).
    apply nth_error_firstn_lt. exact Hi.
  - intros Hlen e He. right. rewrite firstn_all2 by lia. exact He.
  - reflexivity.
  - reflexivity.
Qed.

(** C9 amended, run on a log of three entries. *)
Lemma addToLog_keeps_the_latest_nineteen_witness :
  (length (logOf 3) < 20)%nat /\
  forall e, In e (logOf 3) ->
            In e (gameLog (stateOf (addToLog 4 MsgSpinning LogInfo
                                      (setGameLog (logOf 3) initialClient)))).
Proof.
  split; [simpl; lia|].
  intros e He.
  apply (proj1 (proj2 (proj2 (proj2
           (addToLog_keeps_the_latest_nineteen 4 MsgSpinning LogInfo
              (setGameLog (logOf 3) initialClient)))))).
  - simpl. lia.
  - exact He.
Defined.

(* ------------------------------------------------------------------ *)
(** ** What each handler can do to the state *)

#[local] Arguments Nat.modulo _ _ : simpl never.

Lemma bind_run {R S} (m : Handler R) (k : R -> Handler S) (c : Client) :
  bind m k c
  = (resultOf (k (resultOf (m c)) (stateOf (m c))),
     stateOf (k (resultOf (m c)) (stateOf (m c))),
     callsOf (m c) ++ callsOf (k (resultOf (m c)) (stateOf (m c)))).
Proof.
  unfold bind, resultOf, stateOf, callsOf.
  destruct (m c) as [[r c1] o1]. cbn. destruct (k r c1) as [[s c2] o2]. reflexivity.
Qed.

Lemma stateOf_bind {R S} (m : Handler R) (k : R -> Handler S) (c : Client) :
  stateOf (bind m k c) = stateOf (k (resultOf (m c)) (stateOf (m c))).
Proof. rewrite bind_run. reflexivity. Qed.

Lemma callsOf_bind {R S} (m : Handler R) (k : R -> Handler S) (c : Client) :
  callsOf (bind m k c) = callsOf (m c) ++ callsOf (k (resultOf (m c)) (stateOf (m c))).
Proof. rewrite bind_run. reflexivity. Qed.

Lemma resultOf_bind {R S} (m : Handler R) (k : R -> Handler S) (c : Client) :
  resultOf (bind m k c) = resultOf (k (resultOf (m c)) (stateOf (m c))).
Proof. rewrite bind_run. reflexivity. Qed.

Lemma hookOnly_ret {R} (r : R) : hookOnly (ret r).
Proof. intros c. cbn. destruct c; repeat split; reflexivity. Qed.

Lemma hookOnly_call (d : DbCall) : isStartCountdown d = false -> hookOnly (call d).
Proof. intros Hd c. cbn. rewrite Hd. destruct c; repeat split; reflexivity. Qed.

Lemma hookOnly_setError (e : option string) : hookOnly (update (setError e)).
Proof. intros c. cbn. repeat split; reflexivity. Qed.

Lemma hookOnly_setCurrentGameId (g : option string) : hookOnly (update (setCurrentGameId g)).
Proof. intros c. cbn. repeat split; reflexivity. Qed.

Lemma hookOnly_setDbPlayers (l : list Player) : hookOnly (update (setDbPlayers l)).
Proof. intros c. cbn. repeat split; reflexivity. Qed.

Lemma hookOnly_setGameCountdown (t : option Z) : hookOnly (update (setGameCountdown t)).
Proof. intros c. cbn. repeat split; reflexivity. Qed.

Lemma hookOnly_bind {R S} (m : Handler R) (k : R -> Handler S) :
  hookOnly m -> (forall r, hookOnly (k r)) -> hookOnly (bind m k).
Proof.
  intros Hm Hk c. rewrite stateOf_bind, callsOf_bind.
  destruct (Hm c) as (Hs1 & Hp1 & Hc1).
  destruct (Hk (resultOf (m c)) (stateOf (m c))) as (Hs2 & Hp2 & Hc2).
  split; [|split].
  - etransitivity; [exact Hs2|].
    generalize (hook (stateOf (k (resultOf (m c)) (stateOf (m c))))). intros h.
    rewrite Hs1. reflexivity.
  - rewrite Hp2. exact Hp1.
  - rewrite filter_app, Hc1, Hc2. reflexivity.
Qed.

Lemma hookOnly_when (b : bool) (m : Handler unit) : hookOnly m -> hookOnly (when b m).
Proof. destruct b; [auto|intros _; apply hookOnly_ret]. Qed.

Create HintDb hookOnly.
#[local] Hint Resolve hookOnly_ret hookOnly_setError hookOnly_setCurrentGameId
  hookOnly_setDbPlayers hookOnly_setGameCountdown hookOnly_when : hookOnly.
#[local] Hint Extern 1 (hookOnly (call _)) => (apply hookOnly_call; reflexivity) : hookOnly.
#[local] Hint Extern 2 (hookOnly (bind _ _)) => (apply hookOnly_bind; [|intros ?]) : hookOnly.

Ltac hook_only :=
  repeat match goal with
         | |- hookOnly (match ?x with _ => _ end) => destruct x
         | |- hookOnly (if ?b then _ else _) => destruct b
         | |- hookOnly (bind _ _) => apply hookOnly_bind; [|intros ?]
         | |- _ => solve [auto with hookOnly]
         end.

Lemma updateInventoryCalls_hookOnly (playerId : string) (l : list GiftSelection) :
  hookOnly (updateInventoryCalls playerId l).
Proof. induction l as [|sel l IH]; cbn [updateInventoryCalls]; hook_only. Qed.

Lemma getGameCountdown_hookOnly (g : string) (resp : Resp (option Z)) :
  hookOnly (getGameCountdown g resp).
Proof. unfold getGameCountdown. hook_only. Qed.

Lemma getCurrentGame_hookOnly (n : Z) (fetched : Resp (option GameRow))
      (created : Resp GameRow) : hookOnly (getCurrentGame n fetched created).
Proof. unfold getCurrentGame. hook_only. Qed.

Lemma joinGameWithGifts_hookOnly (gameId playerId : string) (sels : list GiftSelection)
      (color' : string) (pos : nat) (joined : Resp string) :
  hookOnly (joinGameWithGifts gameId playerId sels color' pos joined).
Proof.
  unfold joinGameWithGifts. pose proof (updateInventoryCalls_hookOnly playerId sels).
  hook_only.
Qed.

Lemma joinInDatabase_hookOnly (c0 : Client) (name' : string) (tally : GiftTally)
      (fetched : Resp (option GameRow)) (created : Resp GameRow) (joined : Resp string) :
  hookOnly (joinInDatabase c0 name' tally fetched created joined).
Proof.
  unfold joinInDatabase, addGameLog.
  pose proof (getCurrentGame_hookOnly (rollNumber c0) fetched created).
  pose proof (fun g => joinGameWithGifts_hookOnly g
                (match currentPlayer (hook c0) with Some me => row_id me | None => "" end)
                (giftSelections tally)
                (colorAt (length (players c0) mod length COLORS))
                (length (players c0)) joined) as Hjoin.
  destruct (currentPlayer (hook c0)) as [me|]; hook_only.
Qed.

(** The ways [addPlayer] can return. *)
Lemma addPlayer_spec (v : bool) (now : Z) (rnd1 rnd2 : Q) (c : Client) :
  let out := addPlayer v now rnd1 rnd2 c in
  (stateOf out = c /\ callsOf out = [] /\
   (resultOf out = InvalidInput \/ resultOf out = NameExists \/ resultOf out = RoundFull))
  \/
  (resultOf out = Joined /\ (length (players c) < 15)%nat /\
   callsOf out = (if v then secondJoinCalls c else []) /\
   session (stateOf out) = session c /\
   hook (stateOf out) = hook c /\
   exists p, players (stateOf out) = players c ++ [p] /\
             color p = colorAt (length (players c) mod length COLORS) /\
             name p = trim (playerName (form c))).
Proof.
  intros out. subst out. unfold addPlayer.
  destruct ((trim (playerName (form c)) =? "")
            || badBalance (parseInt (playerBalance (form c)))).
  { left. cbn. auto. }
  destruct (existsb _ (players c)).
  { left. cbn. auto. }
  destruct (15 <=? length (players c))%nat eqn:Hfull.
  { left. cbn. auto 6. }
  right. apply Nat.leb_gt in Hfull.
  unfold secondJoinCalls, secondJoinWithGame.
  destruct v; cbn.
  - destruct (currentGameId (hook c)) as [g|]; cbn.
    + destruct ((length (players c) =? 1)%nat && negb (g =? "")); cbn;
        repeat split; eauto.
    + repeat split; eauto.
  - repeat split; eauto.
Qed.

(** The ways [confirmGiftSelection] can return; [db] is its store part. *)
Lemma confirmGiftSelection_spec (v : bool) (now : Z) (fetched : Resp (option GameRow))
      (created : Resp GameRow) (joined : Resp string) (c : Client) :
  let out := confirmGiftSelection v now fetched created joined c in
  let tally := tallyGifts (userInventory (form c)) (selectedGifts (form c)) in
  let db := joinInDatabase c (joinName c) tally fetched created joined c in
  (stateOf out = c /\ callsOf out = [] /\
   (resultOf out = NoGiftsSelected \/ resultOf out = NoName \/ resultOf out = RoundFull))
  \/
  (resultOf out = GameUnavailable /\ resultOf db = false /\
   stateOf out = stateOf db /\ callsOf out = callsOf db)
  \/
  (resultOf out = AddedGifts /\ resultOf db = true /\
   callsOf out = callsOf db /\
   session (stateOf out) = session c /\
   hook (stateOf out) = hook (stateOf db) /\
   players (stateOf out) = map (addGiftsTo (joinName c) tally) (players c))
  \/
  (resultOf out = Joined /\ resultOf db = true /\
   (length (players c) < 15)%nat /\
   callsOf out = callsOf db ++ (if v then secondJoinCalls c else []) /\
   session (stateOf out) = session c /\
   hook (stateOf out) = hook (stateOf db) /\
   exists p, players (stateOf out) = players c ++ [p] /\
             color p = colorAt (length (players c) mod length COLORS) /\
             name p = joinName c).
Proof.
  intros out tally db. subst out. unfold confirmGiftSelection.
  destruct (length (selectedGifts (form c)) =? 0)%nat.
  { left. cbn. auto. }
  destruct (joinName c =? "").
  { left. cbn. auto. }
  destruct (15 <=? length (players c))%nat eqn:Hfull.
  { left. cbn. auto 6. }
  right. apply Nat.leb_gt in Hfull.
  fold tally. fold db.
  destruct (joinInDatabase_hookOnly c (joinName c) tally fetched created joined c)
    as (Hs & _ & _).
  fold db in Hs.
  rewrite bind_run. fold db.
  destruct (resultOf db) eqn:Hproceed; cbn [negb].
  2:{ left. cbn. rewrite app_nil_r. auto. }
  right.
  destruct (find (fun p => name p =? joinName c) (players c)) as [existing|].
  - left. rewrite Hs. cbn. rewrite app_nil_r. repeat split; reflexivity.
  - right. rewrite Hs. unfold secondJoinCalls, secondJoinWithGame.
    destruct v; cbn.
    + destruct (currentGameId (hook c)) as [g|]; cbn.
      * destruct ((length (players c) =? 1)%nat && negb (g =? "")); cbn;
          repeat split; eauto.
      * repeat split; eauto.
    + repeat split; eauto.
Qed.

(* ------------------------------------------------------------------ *)
(** ** C10: colours within a round *)

Lemma stateOf_forget {R} (m : Handler R) (c : Client) : stateOf (forget m c) = stateOf (m c).
Proof. unfold forget. rewrite stateOf_bind. reflexivity. Qed.

Lemma callsOf_forget {R} (m : Handler R) (c : Client) : callsOf (forget m c) = callsOf (m c).
Proof. unfold forget. rewrite callsOf_bind. cbn. apply app_nil_r. Qed.










(* ------------------------------------------------------------------ *)
(** ** C6: a full round *)

(** C6.  With 15 players listed, every join attempt is turned away and
    changes nothing: [addPlayer] and [confirmGiftSelection] return the state
    they were given and issue no store call, so the players, their stakes
    and the countdown are as before.  An attempt that passes the checks made
    before the size check (a name, a balance in range and a free name for
    [addPlayer]; a gift selected and a name for [confirmGiftSelection]) is
    turned away as round-full: the maximum-15-players alert. *)
Theorem full_round_rejects_every_join :
  forall (v : bool) (c : Client),
    length (players c) = 15%nat ->
    (forall now rnd1 rnd2,
        let out := addPlayer v now rnd1 rnd2 c in
        stateOf out = c /\ callsOf out = [] /\
        (resultOf out = RoundFull \/ resultOf out = InvalidInput
         \/ resultOf out = NameExists) /\
        (trim (playerName (form c)) <> "" ->
         badBalance (parseInt (playerBalance (form c))) = false ->
         (forall p, In p (players c) -> name p <> trim (playerName (form c))) ->
         resultOf out = RoundFull))
    /\
    (forall now fetched created joined,
        let out := confirmGiftSelection v now fetched created joined c in
        stateOf out = c /\ callsOf out = [] /\
        (resultOf out = RoundFull \/ resultOf out = NoGiftsSelected
         \/ resultOf out = NoName) /\
        (selectedGifts (form c) <> [] -> joinName c <> "" ->
         resultOf out = RoundFull)).
Proof.
  intros v c Hfull. split.
  - intros now rnd1 rnd2 out. subst out. unfold addPlayer.
    destruct (trim (playerName (form c)) =? "") eqn:Hname; cbn [orb].
    { apply String.eqb_eq in Hname. cbn. repeat split; auto. congruence. }
    destruct (badBalance (parseInt (playerBalance (form c)))) eqn:Hbal.
    { cbn. repeat split; auto. congruence. }
    destruct (existsb _ (players c)) eqn:Hdup.
    { cbn. repeat split; auto. intros _ _ Hfree.
      apply existsb_exists in Hdup. destruct Hdup as (p & Hp & Heq).
      apply String.eqb_eq in Heq. exfalso. exact (Hfree p Hp Heq). }
    rewrite Hfull. cbn. repeat split; auto.
  - intros now fetched created joined out. subst out. unfold confirmGiftSelection.
    destruct (selectedGifts (form c)) as [|sel sels] eqn:Hsel.
    { cbn. repeat split; auto. congruence. }
    cbn [length Nat.eqb].
    destruct (joinName c =? "") eqn:Hname.
    { apply String.eqb_eq in Hname. cbn. repeat split; auto. congruence. }
    rewrite Hfull. cbn. repeat split; auto.
Qed.

(** C6, run on a full round with a valid sixteenth player in the form. *)
Lemma full_round_rejects_every_join_witness :
  length (players fullRound) = 15%nat /\
  resultOf (addPlayer true 99 0.5 0.5 fullRound) = RoundFull /\
  stateOf (addPlayer true 99 0.5 0.5 fullRound) = fullRound /\
  resultOf (confirmGiftSelection true 99 (Ok None) (Err "down") (Err "down") fullRound)
  = RoundFull.
Proof.
  split; [reflexivity|].
  pose proof (full_round_rejects_every_join true fullRound eq_refl) as [Hadd Hgift].
  split; [|split].
  - apply (Hadd 99%Z 0.5 0.5).
    + vm_compute. discriminate.
    + reflexivity.
    + intros p Hp. vm_compute in Hp.
      repeat (destruct Hp as [<-|Hp]; [vm_compute; discriminate|]). destruct Hp.
  - apply (Hadd 99%Z 0.5 0.5).
  - apply (Hgift 99%Z (Ok None) (Err "down") (Err "down")).
    + vm_compute. discriminate.
    + vm_compute. discriminate.
Defined.

(* ------------------------------------------------------------------ *)
(** ** C5: when the countdown is started *)

(** Against C5 as stated: bob joins as second player on a client that holds
    no game id.  The list goes from one player to two and the handler makes
    no store call at all, so no countdown start is requested, and the
    countdown poll of that client is not armed either. *)
Lemma second_join_without_game_id_starts_no_countdown :
  let out := addPlayer true 7 0.5 0.5 bobJoinsLocally in
  length (players bobJoinsLocally) = 1%nat /\
  resultOf out = Joined /\
  length (players (stateOf out)) = 2%nat /\
  callsOf out = [] /\
  countdownIntervalArmed (stateOf out) = false.
Proof. vm_compute. repeat split; reflexivity. Qed.

(** A join event never shortens the local list, and one that requests a
    countdown start leaves two players listed. *)
Lemma join_event_starts (ev : Event) (c : Client) :
  isJoinEvent ev = true ->
  let out := handle true ev c in
  (length (players c) <= length (players (stateOf out)))%nat /\
  (filter isStartCountdown (callsOf out) <> [] ->
   length (players (stateOf out)) = 2%nat).
Proof.
  intros Hev out. subst out.
  destruct ev; try discriminate Hev; try (cbn; split; [lia|congruence]).
  - cbn [handle]. rewrite stateOf_forget, callsOf_forget.
    destruct (addPlayer_spec true now rnd1 rnd2 c)
      as [(Hs & Hc & _)|(_ & _ & Hc & _ & _ & p & Hp & _)].
    + rewrite Hs, Hc. cbn. split; [lia|congruence].
    + rewrite Hp, Hc, length_app. cbn [length]. split; [lia|].
      unfold secondJoinCalls, secondJoinWithGame.
      destruct (currentGameId (hook c)); [|cbn; congruence].
      destruct (length (players c) =? 1)%nat eqn:Hone; [|cbn; congruence].
      apply Nat.eqb_eq in Hone. intros _. lia.
  - cbn [handle]. rewrite stateOf_forget, callsOf_forget.
    destruct (joinInDatabase_hookOnly c (joinName c)
                (tallyGifts (userInventory (form c)) (selectedGifts (form c)))
                fetched created joined c) as (Hh & _ & Hdb).
    destruct (confirmGiftSelection_spec true now fetched created joined c)
      as [(Hs & Hc & _)|[(_ & _ & Hs & Hc)|[(_ & _ & Hc & _ & _ & Hp)
                                           |(_ & _ & _ & Hc & _ & _ & p & Hp & _)]]].
    + rewrite Hs, Hc. cbn. split; [lia|congruence].
    + rewrite Hs, Hc, Hdb, Hh. cbn. split; [lia|congruence].
    + rewrite Hp, Hc, Hdb, length_map. split; [lia|congruence].
    + rewrite Hp, Hc, filter_app, Hdb, length_app. cbn [length app]. split; [lia|].
      unfold secondJoinCalls, secondJoinWithGame.
      destruct (currentGameId (hook c)); [|cbn; congruence].
      destruct (length (players c) =? 1)%nat eqn:Hone; [|cbn; congruence].
      apply Nat.eqb_eq in Hone. intros _. lia.
Qed.

Lemma join_events_grow (evs : list Event) :
  forall c, Forall (fun ev => isJoinEvent ev = true) evs ->
            (length (players c) <= length (players (runClient true evs c)))%nat.
Proof.
  induction evs as [|ev evs IH]; intros c Hevs; [cbn; lia|].
  inversion Hevs as [|? ? Hev Hrest]; subst. cbn [runClient].
  destruct (join_event_starts ev c Hev) as [Hle _].
  specialize (IH (stateOf (handle true ev c)) Hrest). cbn zeta in Hle. lia.
Qed.

(** C5, amended.  In the snapshot whose join handlers start the countdown:
    a join requests [startGameCountdown(gameId)], which asks the store for
    60 seconds, exactly when it adds the second player to the local list
    and the client holds a game id, and requests no start otherwise.  In a
    round that is filling up and lists at most one player, no start was
    ever requested; and with one participant loaded the countdown poll is
    not armed and a tick does nothing. *)
Theorem countdown_starts_on_second_join_with_game_id :
  (forall now rnd1 rnd2 c,
      let out := addPlayer true now rnd1 rnd2 c in
      callsOf out = (if isJoined (resultOf out) then secondJoinCalls c else []))
  /\
  (forall now fetched created joined c,
      let out := confirmGiftSelection true now fetched created joined c in
      filter isStartCountdown (callsOf out)
      = (if isJoined (resultOf out) then secondJoinCalls c else []))
  /\
  (forall c,
      secondJoinCalls c
      = match currentGameId (hook c) with
        | Some g => if (length (players c) =? 1)%nat && negb (g =? "")
                    then [StartGameCountdown g COUNTDOWN_DURATION] else []
        | None => []
        end)
  /\
  (forall evs c,
      Forall (fun ev => isJoinEvent ev = true) evs ->
      (length (players (runClient true evs c)) <= 1)%nat ->
      filter isStartCountdown (callsOfRun true evs c) = [])
  /\
  (forall c resp,
      length (dbPlayers (hook c)) = 1%nat ->
      countdownIntervalArmed c = false /\ countdownTick resp c = (tt, c, [])).
Proof.
  split; [|split; [|split; [|split]]].
  - intros now rnd1 rnd2 c out. subst out.
    destruct (addPlayer_spec true now rnd1 rnd2 c)
      as [(_ & Hc & [H|[H|H]])|(Hr & _ & Hc & _)]; rewrite Hc, H || rewrite Hc, Hr;
      reflexivity.
  - intros now fetched created joined c out. subst out.
    destruct (joinInDatabase_hookOnly c (joinName c)
                (tallyGifts (userInventory (form c)) (selectedGifts (form c)))
                fetched created joined c) as (_ & _ & Hdb).
    destruct (confirmGiftSelection_spec true now fetched created joined c)
      as [(_ & Hc & [H|[H|H]])|[(H & _ & _ & Hc)|[(H & _ & Hc & _)
                                                 |(H & _ & _ & Hc & _)]]];
      rewrite Hc, H; cbn [isJoined filter]; try reflexivity; try exact Hdb.
    rewrite filter_app, Hdb. cbn [app].
    unfold secondJoinCalls. destruct (currentGameId (hook c)); [|reflexivity].
    destruct (secondJoinWithGame c); reflexivity.
  - intros c. unfold secondJoinCalls, secondJoinWithGame.
    destruct (currentGameId (hook c)); reflexivity.
  - induction evs as [|ev evs IH]; intros c Hevs Hlen; [reflexivity|].
    inversion Hevs as [|? ? Hev Hrest]; subst. cbn [callsOfRun runClient] in *.
    rewrite filter_app, IH by assumption. rewrite app_nil_r.
    destruct (join_event_starts ev c Hev) as [_ Htwo]. cbn zeta in Htwo.
    destruct (filter isStartCountdown (callsOf (handle true ev c))) as [|d l] eqn:Hf;
      [reflexivity|].
    exfalso. assert (Hneq : d :: l <> []) by discriminate.
    specialize (Htwo Hneq).
    pose proof (join_events_grow evs (stateOf (handle true ev c)) Hrest). lia.
  - intros c resp Hone. unfold countdownTick, countdownIntervalArmed. rewrite Hone.
    cbn. rewrite andb_false_r. split; [reflexivity|].
    destruct (currentGameId (hook c)); reflexivity.
Qed.

(** C5 amended, run: bob joins ann on a client that holds game-1, and the
    start is requested; ann alone never has one requested. *)
Lemma countdown_starts_on_second_join_with_game_id_witness :
  callsOf (addPlayer true 7 0.5 0.5 bobJoinsGame) = [StartGameCountdown "game-1" 60] /\
  filter isStartCountdown
    (callsOfRun true [EvTypeName "ann"; EvTypeBalance "10"; EvAddPlayer 1 0.5 0.5]
       (setCurrentGameId (Some "game-1") initialClient)) = [].
Proof.
  destruct countdown_starts_on_second_join_with_game_id as (Hadd & _ & _ & Hrun & _).
  split.
  - rewrite (Hadd 7%Z 0.5 0.5 bobJoinsGame). reflexivity.
  - apply Hrun.
    + repeat constructor.
    + vm_compute. lia.
Defined.

(** The snapshot without that last statement never asks for a countdown
    from a join. *)
Lemma joins_without_the_start_request_no_countdown :
  (forall now rnd1 rnd2 c, callsOf (addPlayer false now rnd1 rnd2 c) = []) /\
  (forall now fetched created joined c,
      filter isStartCountdown
        (callsOf (confirmGiftSelection false now fetched created joined c)) = []).
Proof.
  split.
  - intros now rnd1 rnd2 c.
    destruct (addPlayer_spec false now rnd1 rnd2 c) as [(_ & Hc & _)|(_ & _ & Hc & _)];
      exact Hc.
  - intros now fetched created joined c.
    destruct (joinInDatabase_hookOnly c (joinName c)
                (tallyGifts (userInventory (form c)) (selectedGifts (form c)))
                fetched created joined c) as (_ & _ & Hdb).
    destruct (confirmGiftSelection_spec false now fetched created joined c)
      as [(_ & Hc & _)|[(_ & _ & _ & Hc)|[(_ & _ & Hc & _)|(_ & _ & _ & Hc & _)]]];
      rewrite Hc; try reflexivity; try exact Hdb.
    rewrite app_nil_r. exact Hdb.
Qed.

(* ------------------------------------------------------------------ *)
(** ** C8: a join whose store write fails *)

(** Against C8 as stated: bob's join write on game-1 fails; the handler
    still adds bob locally and records the error, and then issues the
    countdown start for the same game, a store write made after the
    failure. *)
Lemma failed_join_is_followed_by_a_store_write :
  let out := confirmGiftSelection true 7 (Ok None) (Err "down") (Err "timeout")
                                  bobConfirmsGift in
  resultOf out = Joined /\
  map name (players (stateOf out)) = ["ann"; "bob"] /\
  error (hook (stateOf out)) = Some "Failed to join game: timeout" /\
  callsOf out
  = [ JoinGame "game-1" "player-bob" [mkGiftSelection "gift-1" 1 (0.5 * inject_Z 1)]
               "#4ECDC4" 1;
      StartGameCountdown "game-1" 60 ] /\
  existsb isRemoteWrite (skipn 1 (callsOf out)) = true.
Proof. vm_compute. repeat split; reflexivity. Qed.

Lemma errBlind_ret {R} (r : R) : errBlind (ret r).
Proof. intros c e. cbn. eauto. Qed.

Lemma errBlind_call (d : DbCall) : errBlind (call d).
Proof. intros c e. cbn. eauto. Qed.

Lemma errBlind_update (f : Client -> Client) :
  (forall c e, exists e', f (setError e c) = setError e' (f c)) -> errBlind (update f).
Proof. intros Hf c e. cbn. repeat split. apply Hf. Qed.

Lemma errBlind_bind {R S} (m : Handler R) (k : R -> Handler S) :
  errBlind m -> (forall r, errBlind (k r)) -> errBlind (bind m k).
Proof.
  intros Hm Hk c e. rewrite !resultOf_bind, !callsOf_bind, !stateOf_bind.
  destruct (Hm c e) as (Hr & Hc & e1 & Hs). rewrite Hr, Hc, Hs.
  destruct (Hk (resultOf (m c)) (stateOf (m c)) e1) as (Hr2 & Hc2 & e2 & Hs2).
  rewrite Hr2, Hc2, Hs2. eauto.
Qed.

Lemma errBlind_when (b : bool) (m : Handler unit) : errBlind m -> errBlind (when b m).
Proof. destruct b; [auto|intros _; apply errBlind_ret]. Qed.

Ltac err_blind :=
  repeat match goal with
         | |- errBlind (match ?x with _ => _ end) => destruct x
         | |- errBlind (if ?b then _ else _) => destruct b
         | |- errBlind (bind _ _) => apply errBlind_bind; [|intros ?]
         | |- errBlind (when _ _) => apply errBlind_when
         | |- errBlind (ret _) => apply errBlind_ret
         | |- errBlind (call _) => apply errBlind_call
         | |- errBlind (update _) =>
             apply errBlind_update; intros ? ?; eexists; reflexivity
         | |- _ => solve [auto]
         end.

(** For a handler written [fun c => ...]: once the reads of the two states
    are reduced to the same values, each branch is a chain of the above. *)
Ltac err_blind_branches :=
  repeat match goal with
         | |- context [if ?b then _ else _] => destruct b
         | |- context [match ?x with _ => _ end] => destruct x
         end;
  match goal with
  | |- resultOf (?M (setError ?e ?c)) = resultOf (?M ?c) /\ _ =>
      let H := fresh in assert (H : errBlind M) by err_blind; exact (H c e)
  | |- resultOf (_, setError ?e ?c, _) = _ /\ _ => cbn; eauto
  end.

Ltac reduce_reads :=
  repeat match goal with
         | |- context [joinName (setError ?e ?c)] =>
             change (joinName (setError e c)) with (joinName c)
         | |- context [countdownIntervalArmed (setError ?e ?c)] =>
             change (countdownIntervalArmed (setError e c)) with (countdownIntervalArmed c)
         | |- context [autoSpinGuard (setError ?e ?c)] =>
             change (autoSpinGuard (setError e c)) with (autoSpinGuard c)
         | |- context [joinInDatabase (setError ?e ?c)] =>
             change (joinInDatabase (setError e c)) with (joinInDatabase c)
         end;
  cbn [setError set_hook hook form players gameLog isSpinning winner showWinnerModal
       rollNumber matchHistory pendingSpin pendingReset currentGameId currentPlayer
       dbPlayers gameCountdown playerName playerBalance userInventory selectedGifts
       showGiftPopup formTelegramUser].

Lemma addToLog_errBlind (now : Z) (msg : Message) (type : LogType) :
  errBlind (addToLog now msg type).
Proof. unfold addToLog. err_blind. Qed.

Lemma updateInventoryCalls_errBlind (playerId : string) (l : list GiftSelection) :
  errBlind (updateInventoryCalls playerId l).
Proof. induction l as [|sel l IH]; cbn [updateInventoryCalls]; err_blind. Qed.

Lemma getCurrentGame_errBlind (n : Z) (fetched : Resp (option GameRow))
      (created : Resp GameRow) : errBlind (getCurrentGame n fetched created).
Proof. unfold getCurrentGame. err_blind. Qed.

Lemma joinGameWithGifts_errBlind (gameId playerId : string) (sels : list GiftSelection)
      (color' : string) (pos : nat) (joined : Resp string) :
  errBlind (joinGameWithGifts gameId playerId sels color' pos joined).
Proof.
  unfold joinGameWithGifts. pose proof (updateInventoryCalls_errBlind playerId sels).
  err_blind.
Qed.

Lemma completeGame_errBlind (gameId winnerId : string) (chance total : Q) (now : Z)
      (updated : Resp GameRow) (logged : Resp unit) :
  errBlind (completeGame gameId winnerId chance total now updated logged).
Proof. unfold completeGame. err_blind. Qed.

Lemma joinInDatabase_errBlind (c0 : Client) (name' : string) (tally : GiftTally)
      (fetched : Resp (option GameRow)) (created : Resp GameRow) (joined : Resp string) :
  errBlind (joinInDatabase c0 name' tally fetched created joined).
Proof.
  unfold joinInDatabase, addGameLog.
  pose proof (getCurrentGame_errBlind (rollNumber c0) fetched created).
  pose proof (fun g p => joinGameWithGifts_errBlind g p (giftSelections tally)
                (colorAt (length (players c0) mod length COLORS))
                (length (players c0)) joined).
  err_blind.
Qed.

Lemma settle_errBlind (cl : SpinClosure) (now : Z) (updated : Resp GameRow)
      (logged : Resp unit) : errBlind (settle cl now updated logged).
Proof.
  unfold settle, addGameLog, loadMatchHistory.
  pose proof addToLog_errBlind.
  pose proof (fun g w ch t => completeGame_errBlind g w ch t now updated logged).
  err_blind.
Qed.

Lemma addPlayer_errBlind (v : bool) (now : Z) (rnd1 rnd2 : Q) :
  errBlind (addPlayer v now rnd1 rnd2).
Proof.
  pose proof addToLog_errBlind.
  intros c e. unfold addPlayer, startGameCountdown. reduce_reads. err_blind_branches.
Qed.

Lemma confirmGiftSelection_errBlind (v : bool) (now : Z) (fetched : Resp (option GameRow))
      (created : Resp GameRow) (joined : Resp string) :
  errBlind (confirmGiftSelection v now fetched created joined).
Proof.
  pose proof addToLog_errBlind.
  intros c e. unfold confirmGiftSelection, startGameCountdown. reduce_reads.
  pose proof (joinInDatabase_errBlind c (joinName c)
                (tallyGifts (userInventory (form c)) (selectedGifts (form c)))
                fetched created joined).
  err_blind_branches.
Qed.

Lemma spinWheel_errBlind (closureDbPlayers : list Player) (now : Z) (rng : Q) :
  errBlind (spinWheel closureDbPlayers now rng).
Proof.
  pose proof addToLog_errBlind.
  intros c e. unfold spinWheel, addGameLog. reduce_reads. err_blind_branches.
Qed.

Lemma autoSpinEffect_errBlind (closureDbPlayers : list Player) (now : Z) (rng : Q) :
  errBlind (autoSpinEffect closureDbPlayers now rng).
Proof.
  pose proof (spinWheel_errBlind closureDbPlayers now rng).
  intros c e. unfold autoSpinEffect. reduce_reads. err_blind_branches.
Qed.

Lemma onSpinTimeout_errBlind (now : Z) (updated : Resp GameRow) (logged : Resp unit) :
  errBlind (onSpinTimeout now updated logged).
Proof.
  pose proof (fun cl => settle_errBlind cl now updated logged).
  intros c e. unfold onSpinTimeout. reduce_reads. err_blind_branches.
Qed.

Lemma onResetTimeout_errBlind (fetched : Resp (option GameRow)) (created : Resp GameRow) :
  errBlind (onResetTimeout fetched created).
Proof.
  pose proof getCurrentGame_errBlind.
  intros c e. unfold onResetTimeout. reduce_reads. err_blind_branches.
Qed.

Lemma countdownTick_errBlind (resp : Resp (option Z)) : errBlind (countdownTick resp).
Proof.
  intros c e. unfold countdownTick, getGameCountdown. reduce_reads. err_blind_branches.
Qed.

Lemma syncPlayersEffect_errBlind : errBlind syncPlayersEffect.
Proof. intros c e. unfold syncPlayersEffect. reduce_reads. err_blind_branches. Qed.

Lemma handle_errBlind (v : bool) (ev : Event) : errBlind (handle v ev).
Proof.
  destruct ev; cbn [handle]; unfold forget, loadGameParticipants;
    auto using syncPlayersEffect_errBlind, countdownTick_errBlind,
               onSpinTimeout_errBlind, onResetTimeout_errBlind;
    pose proof addPlayer_errBlind; pose proof confirmGiftSelection_errBlind;
    pose proof getCurrentGame_errBlind; pose proof autoSpinEffect_errBlind;
    err_blind.
Qed.

(** No handler reads the hook's [error]: with any error recorded, every
    event issues the store calls it would issue without. *)
Lemma error_state_gates_nothing (v : bool) (ev : Event) (e : option string) (c : Client) :
  callsOf (handle v ev (setError e c)) = callsOf (handle v ev c).
Proof. apply handle_errBlind. Qed.

(** What the store part of [confirmGiftSelection] leaves behind when the
    client holds a game id and the join write fails. *)
Lemma joinInDatabase_failed (c : Client) (name' : string) (tally : GiftTally)
      (fetched : Resp (option GameRow)) (created : Resp GameRow) (joined : Resp string)
      (g : string) (me : PlayerRow) :
  currentPlayer (hook c) = Some me ->
  currentGameId (hook c) = Some g -> g <> "" ->
  (exists m, joined = Err m \/ joined = Throws m) ->
  let db := joinInDatabase c name' tally fetched created joined c in
  resultOf db = true /\
  (exists msg, error (hook (stateOf db)) = Some msg) /\
  (callsOf db = []
   \/ callsOf db = [JoinGame g (row_id me) (giftSelections tally)
                             (colorAt (length (players c) mod length COLORS))
                             (length (players c))]).
Proof.
  intros Hme Hg Hne (m & Hfail) db. subst db. unfold joinInDatabase.
  rewrite Hme, Hg.
  assert (Hne' : (g =? "") = false) by (apply String.eqb_neq; exact Hne).
  cbn [truthy]. rewrite Hne'. cbn [negb]. rewrite bind_run. cbn [ret resultOf stateOf callsOf fst snd].
  rewrite Hne'. rewrite bind_run. unfold joinGameWithGifts. rewrite Hne'. cbn [orb].
  destruct ((row_id me =? "") || (length (giftSelections tally) =? 0)%nat).
  - cbn. repeat split; eauto.
  - destruct Hfail as [-> | ->]; cbn; repeat split; eauto.
Qed.

(** Past its three early returns and with the store part letting it go on,
    [confirmGiftSelection] adds the player or merges the gifts. *)
Lemma confirmGiftSelection_result (v : bool) (now : Z) (fetched : Resp (option GameRow))
      (created : Resp GameRow) (joined : Resp string) (c : Client) :
  selectedGifts (form c) <> [] -> joinName c <> "" ->
  (length (players c) < 15)%nat ->
  resultOf (joinInDatabase c (joinName c)
              (tallyGifts (userInventory (form c)) (selectedGifts (form c)))
              fetched created joined c) = true ->
  resultOf (confirmGiftSelection v now fetched created joined c)
  = match find (fun p => name p =? joinName c) (players c) with
    | Some _ => AddedGifts
    | None => Joined
    end.
Proof.
  intros Hsel Hname Hlen Hproceed. unfold confirmGiftSelection.
  destruct (selectedGifts (form c)) as [|sel sels] eqn:Hs; [congruence|].
  cbn [length Nat.eqb].
  destruct (joinName c =? "") eqn:E; [apply String.eqb_eq in E; congruence|].
  destruct (15 <=? length (players c))%nat eqn:E2; [apply Nat.leb_le in E2; lia|].
  rewrite resultOf_bind, Hproceed. cbn [negb]. rewrite resultOf_bind.
  destruct (find (fun p => name p =? joinName c) (players c));
    rewrite !resultOf_bind; reflexivity.
Qed.

Lemma addGiftsTo_lists_name (name' : string) (tally : GiftTally) (l : list Player) :
  find (fun p => name p =? name') l <> None ->
  In name' (map name (map (addGiftsTo name' tally) l)).
Proof.
  induction l as [|p l IH]; cbn [find]; [congruence|].
  unfold addGiftsTo at 1. cbn [map].
  destruct (name p =? name') eqn:Heq.
  - intros _. left. cbn. apply String.eqb_eq. exact Heq.
  - intros H. right. apply IH. exact H.
Qed.

(** C8, amended.  On a client that is signed in and holds a game id, when
    the store's join write fails (an error answer or a rejected promise),
    [confirmGiftSelection] returns normally with the join made locally: the
    player is listed (added, or the gifts merged into the player of that
    name) and the failure is recorded in the hook's [error].  Nothing is
    suppressed afterwards: the countdown start of that join is still issued
    in the snapshot that has it, and with an error recorded every handler
    issues the store calls it would issue without. *)
Theorem failed_join_write_joins_locally_and_suppresses_nothing :
  forall (v : bool) (now : Z) (fetched : Resp (option GameRow)) (created : Resp GameRow)
         (joined : Resp string) (c : Client) (g : string) (me : PlayerRow),
    currentPlayer (hook c) = Some me ->
    currentGameId (hook c) = Some g -> g <> "" ->
    selectedGifts (form c) <> [] -> joinName c <> "" ->
    (length (players c) < 15)%nat ->
    (exists m, joined = Err m \/ joined = Throws m) ->
    let out := confirmGiftSelection v now fetched created joined c in
    (resultOf out = Joined \/ resultOf out = AddedGifts) /\
    In (joinName c) (map name (players (stateOf out))) /\
    (exists msg, error (hook (stateOf out)) = Some msg) /\
    filter isStartCountdown (callsOf out)
    = (if v && isJoined (resultOf out) then secondJoinCalls c else []) /\
    (forall v' ev e, callsOf (handle v' ev (setError e (stateOf out)))
                     = callsOf (handle v' ev (stateOf out))).
Proof.
  intros v now fetched created joined c g me Hme Hg Hne Hsel Hname Hlen Hfail out.
  pose proof (joinInDatabase_failed c (joinName c)
                (tallyGifts (userInventory (form c)) (selectedGifts (form c)))
                fetched created joined g me Hme Hg Hne Hfail) as (Hproceed & Herr & _).
  destruct (joinInDatabase_hookOnly c (joinName c)
              (tallyGifts (userInventory (form c)) (selectedGifts (form c)))
              fetched created joined c) as (_ & _ & Hdb).
  pose proof (confirmGiftSelection_result v now fetched created joined c
                Hsel Hname Hlen Hproceed) as Hres.
  subst out.
  destruct (confirmGiftSelection_spec v now fetched created joined c)
    as [(_ & _ & [H|[H|H]])|[(_ & H & _)|[(Hr & _ & Hc & _ & Hh & Hp)
                                         |(Hr & _ & _ & Hc & _ & Hh & p & Hp & _ & Hn)]]].
  - rewrite H in Hres. destruct (find _ (players c)); discriminate.
  - rewrite H in Hres. destruct (find _ (players c)); discriminate.
  - rewrite H in Hres. destruct (find _ (players c)); discriminate.
  - congruence.
  - rewrite Hr, Hc, Hh, Hp. split; [auto|]. split; [|split; [exact Herr|split]].
    + apply addGiftsTo_lists_name. intros Hnone. rewrite Hnone in Hres. congruence.
    + rewrite andb_false_r. exact Hdb.
    + intros v' ev e. apply error_state_gates_nothing.
  - rewrite Hr, Hc, Hh, Hp. split; [auto|]. split; [|split; [exact Herr|split]].
    + rewrite map_app. apply in_or_app. right. left. exact Hn.
    + rewrite filter_app, Hdb. cbn [app isJoined]. rewrite andb_true_r.
      destruct v; [|reflexivity].
      unfold secondJoinCalls. destruct (currentGameId (hook c)); [|reflexivity].
      destruct (secondJoinWithGame c); reflexivity.
    + intros v' ev e. apply error_state_gates_nothing.
Qed.

(** C8 amended, run on bob's failed join. *)
Lemma failed_join_write_joins_locally_and_suppresses_nothing_witness :
  let out := confirmGiftSelection true 7 (Ok None) (Err "down") (Err "timeout")
                                  bobConfirmsGift in
  (resultOf out = Joined \/ resultOf out = AddedGifts) /\
  In (joinName bobConfirmsGift) (map name (players (stateOf out))) /\
  (exists msg, error (hook (stateOf out)) = Some msg) /\
  filter isStartCountdown (callsOf out)
  = (if true && isJoined (resultOf out) then secondJoinCalls bobConfirmsGift else []) /\
  (forall v' ev e, callsOf (handle v' ev (setError e (stateOf out)))
                   = callsOf (handle v' ev (stateOf out))).
Proof.
  apply (failed_join_write_joins_locally_and_suppresses_nothing
           true 7%Z (Ok None) (Err "down") (Err "timeout") bobConfirmsGift
           "game-1" (mkPlayerRow "player-bob")).
  - reflexivity.
  - reflexivity.
  - discriminate.
  - discriminate.
  - vm_compute. discriminate.
  - simpl. lia.
  - exists "timeout". left. reflexivity.
Defined.

(* ------------------------------------------------------------------ *)
(** ** C3: one spin per roll number *)

Lemma hookOnly_session {R} (m : Handler R) (c : Client) :
  hookOnly m -> session (stateOf (m c)) = session c.
Proof. intros H. destruct (H c) as (Hs & _). rewrite Hs. reflexivity. Qed.

Lemma countdownTick_session (resp : Resp (option Z)) (c : Client) :
  session (stateOf (countdownTick resp c)) = session c.
Proof.
  unfold countdownTick. destruct (currentGameId (hook c)) as [g|]; [|reflexivity].
  destruct (countdownIntervalArmed c); [|reflexivity].
  apply hookOnly_session. pose proof (getGameCountdown_hookOnly g resp). hook_only.
Qed.

(** Outside the spin, no event touches the flag, the roll number or the
    timers, and none is an attempt. *)
Lemma other_events_keep_session (v : bool) (ev : Event) (c : Client) :
  isSpinEvent ev = false ->
  session (stateOf (handle v ev c)) = session c /\ attemptOf ev c = None.
Proof.
  intros Hev. split; [|destruct ev; try reflexivity; discriminate Hev].
  destruct ev; try discriminate Hev; cbn [handle]; try reflexivity.
  - rewrite stateOf_forget.
    destruct (addPlayer_spec v now rnd1 rnd2 c) as [(Hs & _)|(_ & _ & _ & Hs & _)];
      [rewrite Hs; reflexivity|exact Hs].
  - rewrite stateOf_forget.
    destruct (confirmGiftSelection_spec v now fetched created joined c)
      as [(Hs & _)|[(_ & _ & Hs & _)|[(_ & _ & _ & Hs & _)|(_ & _ & _ & _ & Hs & _)]]];
      try exact Hs.
    + rewrite Hs. reflexivity.
    + rewrite Hs. apply hookOnly_session, joinInDatabase_hookOnly.
  - rewrite stateOf_forget. apply hookOnly_session, getCurrentGame_hookOnly.
  - apply hookOnly_session. unfold loadGameParticipants. hook_only.
  - unfold syncPlayersEffect. destruct (0 <? length (dbPlayers (hook c)))%nat; reflexivity.
  - apply countdownTick_session.
Qed.


Lemma settle_session (cl : SpinClosure) (now : Z) (updated : Resp GameRow)
      (logged : Resp unit) (c : Client) :
  let c' := stateOf (settle cl now updated logged c) in
  isSpinning c' = isSpinning c /\
  pendingSpin c' = pendingSpin c /\
  pendingReset c' = pendingReset c ++ [cl] /\
  rollNumber c' = match sc_selectedWinner cl with
                  | Some _ => (rollNumber c + 1)%Z
                  | None => rollNumber c
                  end.
Proof.
  unfold settle. destruct (sc_selectedWinner cl) as [w|]; [|cbn; auto].
  destruct (sc_currentGameId cl) as [g|]; [destruct (sc_currentPlayer cl) as [me|]|];
    try (cbn; auto; fail).
  destruct (truthy (Some g)); [|cbn; auto].
  destruct updated as [row|m|m]; [destruct logged as [u|m|m]| |]; cbn; auto.
Qed.


Lemma onResetTimeout_step (fetched : Resp (option GameRow)) (created : Resp GameRow)
      (c : Client) :
  let c' := stateOf (onResetTimeout fetched created c) in
  match pendingReset c with
  | [] => c' = c
  | cl :: rest =>
      isSpinning c' = false /\ pendingSpin c' = pendingSpin c /\
      pendingReset c' = rest /\ rollNumber c' = rollNumber c
  end.
Proof.
  unfold onResetTimeout. destruct (pendingReset c) as [|cl rest] eqn:Hp; [reflexivity|].
  destruct (sc_currentPlayer cl) as [me|]; [|cbn; auto].
  rewrite !stateOf_bind.
  match goal with
  | |- context [getCurrentGame ?n fetched created ?c0] =>
      pose proof (hookOnly_session _ c0 (getCurrentGame_hookOnly n fetched created)) as Hs
  end.
  cbn [ret stateOf fst snd] in *. unfold session in Hs.
  injection Hs as H1 H2 H3 H4. rewrite H1, H2, H3, H4. cbn. auto.
Qed.






(** A draw over stakes that are not negative, with [Math.random()] in
    [0, 1], selects a winner: the premise of C3 holds of such runs. *)
Lemma attempt_over_nonnegative_stakes_has_winner
      (closureDbPlayers : list Player) (now : Z) (rng : Q) (c : Client) (a : Attempt) :
  attemptOf (EvAutoSpin closureDbPlayers now rng) c = Some a ->
  (forall p, In p (activePlayersOf closureDbPlayers (players c)) -> 0 <= playerValue p) ->
  0 <= rng <= 1 ->
  hasWinner a.
Proof.
  intros Hatt Hpos Hrng. unfold attemptOf, autoSpinEffect in Hatt.
  destruct (autoSpinGuard c); [|discriminate Hatt].
  rewrite resultOf_bind in Hatt. unfold spinWheel in Hatt.
  destruct (length (activePlayersOf closureDbPlayers (players c)) <? 2)%nat eqn:Hlen;
    [discriminate Hatt|].
  apply Nat.ltb_ge in Hlen.
  destruct (isSpinning c); [discriminate Hatt|].
  destruct (selectWinner_total (activePlayersOf closureDbPlayers (players c)) rng)
    as [w Hw]; [|exact Hpos|exact Hrng|].
  { intros E. rewrite E in Hlen. cbn in Hlen. lia. }
  rewrite Hw in Hatt.
  assert (Ha : a = mkAttempt (rollNumber c) (currentGameId (hook c)) (Some w)).
  { destruct (currentGameId (hook c)) as [g|]; cbn in Hatt;
      [destruct (negb (g =? "")); cbn in Hatt|]; congruence. }
  subst a. unfold hasWinner. cbn. discriminate.
Qed.



(* ------------------------------------------------------------------ *)
(** ** C4: two clients at the end of the countdown *)








(* ================================================================== *)
(** * Part III: the rest of the client *)

(* ------------------------------------------------------------------ *)
(** ** The draw is proportional *)






(* ------------------------------------------------------------------ *)
(** ** The chances listed beside the players *)




(* ------------------------------------------------------------------ *)
(** ** The stake of a test player *)




(* ------------------------------------------------------------------ *)
(** ** Picking gifts *)

Lemma find_app {A} (f : A -> bool) (l1 l2 : list A) :
  find f (l1 ++ l2) = match find f l1 with Some x => Some x | None => find f l2 end.
Proof.
  induction l1 as [|x l1 IH]; simpl; [reflexivity|].
  destruct (f x); [reflexivity|exact IH].
Qed.

Lemma selectedEntry_id (giftId : string) (l : list SelectedGift) (s : SelectedGift) :
  selectedEntry giftId l = Some s -> In s l /\ selected_id s = giftId.
Proof.
  unfold selectedEntry. intros H. apply find_some in H as [Hin Heq].
  apply String.eqb_eq in Heq. auto.
Qed.

Lemma selectedEntry_none (giftId : string) (l : list SelectedGift) :
  selectedEntry giftId l = None <-> ~ In giftId (map selected_id l).
Proof.
  unfold selectedEntry. induction l as [|s l IH]; simpl.
  - split; [intros _ []|reflexivity].
  - destruct (selected_id s =? giftId) eqn:E.
    + apply String.eqb_eq in E. split; [discriminate|]. intros H. exfalso. apply H. left. exact E.
    + apply String.eqb_neq in E. rewrite IH. split.
      * intros H [H'|H']; [exact (E H')|exact (H H')].
      * intros H H'. apply H. right. exact H'.
Qed.

Lemma selectedEntry_unique (l : list SelectedGift) (s : SelectedGift) :
  NoDup (map selected_id l) -> In s l -> selectedEntry (selected_id s) l = Some s.
Proof.
  unfold selectedEntry. induction l as [|x l IH]; simpl; intros Hnd Hin; [destruct Hin|].
  inversion Hnd as [|? ? Hx Hl]; subst.
  destruct Hin as [->|Hin].
  - rewrite String.eqb_refl. reflexivity.
  - destruct (selected_id x =? selected_id s) eqn:E.
    + apply String.eqb_eq in E. exfalso. apply Hx. rewrite E. apply in_map. exact Hin.
    + apply IH; assumption.
Qed.

(** Rewriting the quantity of the entries of one id keeps every id. *)
Lemma map_requantify_ids (giftId : string) (f : SelectedGift -> Z) (l : list SelectedGift) :
  map selected_id
      (map (fun s => if selected_id s =? giftId
                     then mkSelectedGift (selected_id s) (f s) else s) l)
  = map selected_id l.
Proof.
  rewrite map_map. apply map_ext. intros s.
  destruct (selected_id s =? giftId); reflexivity.
Qed.

Lemma selectedEntry_requantify (giftId : string) (f : SelectedGift -> Z)
      (l : list SelectedGift) :
  selectedEntry giftId
    (map (fun s => if selected_id s =? giftId
                   then mkSelectedGift (selected_id s) (f s) else s) l)
  = option_map (fun s => mkSelectedGift giftId (f s)) (selectedEntry giftId l).
Proof.
  unfold selectedEntry. induction l as [|s l IH]; simpl; [reflexivity|].
  destruct (selected_id s =? giftId) eqn:E; simpl; rewrite E.
  - apply String.eqb_eq in E. rewrite E. reflexivity.
  - exact IH.
Qed.

Lemma NoDup_map_filter {A B} (f : A -> B) (P : A -> bool) (l : list A) :
  NoDup (map f l) -> NoDup (map f (filter P l)).
Proof.
  induction l as [|x l IH]; simpl; intros H; [constructor|].
  inversion H as [|? ? Hx Hl]; subst.
  destruct (P x); simpl; [|apply IH; exact Hl].
  constructor; [|apply IH; exact Hl].
  intros Hin. apply Hx. apply in_map_iff in Hin as (y & Hy & Hin).
  apply filter_In in Hin as [Hin _]. rewrite <- Hy. apply in_map. exact Hin.
Qed.

(** X4.  [handleGiftSelection(giftId, quantity)] on a selection that
    names each gift once: afterwards the selection still names each gift
    once, the entries of the other gifts are the ones it had, and the
    entry of [giftId] is [quantity] when [quantity > 0] and is gone when
    [quantity === 0].  A negative quantity is written onto an entry that
    exists, and adds none. *)
Theorem handleGiftSelection_sets_the_entry :
  forall (giftId : string) (quantity : Z) (prev : list SelectedGift),
    NoDup (map selected_id prev) ->
    let next := handleGiftSelection giftId quantity prev in
    NoDup (map selected_id next) /\
    (forall other, other <> giftId ->
                   selectedEntry other next = selectedEntry other prev) /\
    ((0 < quantity)%Z ->
     selectedEntry giftId next = Some (mkSelectedGift giftId quantity)) /\
    (quantity = 0%Z -> selectedEntry giftId next = None) /\
    ((quantity < 0)%Z ->
     selectedEntry giftId next
     = option_map (fun _ => mkSelectedGift giftId quantity) (selectedEntry giftId prev)).
Proof.
  intros giftId quantity prev Hnd next. subst next. unfold handleGiftSelection.
  fold (selectedEntry giftId prev).
  destruct (selectedEntry giftId prev) as [existing|] eqn:Hfind.
  - destruct (quantity =? 0)%Z eqn:Hq.
    + apply Z.eqb_eq in Hq. subst quantity.
      split; [apply NoDup_map_filter; exact Hnd|]. split; [|split; [lia|split; [|lia]]].
      * intros other Hother. unfold selectedEntry.
        clear Hfind Hnd. induction prev as [|s l IH]; simpl; [reflexivity|].
        destruct (selected_id s =? giftId) eqn:E; simpl.
        -- apply String.eqb_eq in E.
           destruct (selected_id s =? other) eqn:E'; [|exact IH].
           apply String.eqb_eq in E'. congruence.
        -- rewrite IH. reflexivity.
      * intros _. apply selectedEntry_none. intros Hin.
        apply in_map_iff in Hin as (s & Hs & Hin). apply filter_In in Hin as [_ Hne].
        rewrite Hs, String.eqb_refl in Hne. discriminate.
    + apply Z.eqb_neq in Hq.
      split; [rewrite map_requantify_ids; exact Hnd|].
      split; [|split; [|split; [lia|]]].
      * intros other Hother. unfold selectedEntry.
        clear Hfind Hnd. induction prev as [|s l IH]; simpl; [reflexivity|].
        destruct (selected_id s =? giftId) eqn:E; simpl.
        -- apply String.eqb_eq in E.
           destruct (selected_id s =? other) eqn:E'; [|exact IH].
           apply String.eqb_eq in E'. congruence.
        -- rewrite IH. reflexivity.
      * intros _. rewrite (selectedEntry_requantify giftId (fun _ => quantity)), Hfind.
        reflexivity.
      * intros _. rewrite (selectedEntry_requantify giftId (fun _ => quantity)), Hfind.
        reflexivity.
  - pose proof (proj1 (selectedEntry_none giftId prev) Hfind) as Hout.
    destruct (quantity >? 0)%Z eqn:Hq.
    + rewrite Z.gtb_ltb in Hq. apply Z.ltb_lt in Hq.
      split; [|split; [|split; [|split; [lia|lia]]]].
      * rewrite map_app. simpl. apply NoDup_app; [exact Hnd|repeat constructor; intros []|].
        intros x Hx [<-|[]]. exact (Hout Hx).
      * intros other Hother. unfold selectedEntry. rewrite find_app. simpl.
        destruct (find _ prev); [reflexivity|].
        destruct (giftId =? other) eqn:E; [|reflexivity].
        apply String.eqb_eq in E. congruence.
      * intros _. unfold selectedEntry in *. rewrite find_app, Hfind. simpl.
        rewrite String.eqb_refl. reflexivity.
    + rewrite Z.gtb_ltb in Hq. apply Z.ltb_ge in Hq.
      split; [exact Hnd|]. split; [reflexivity|]. split; [lia|].
      split; intros _; exact Hfind.
Qed.

(** X4 on a selection of two gifts: three of the first, then none of it. *)
Lemma handleGiftSelection_sets_the_entry_witness :
  let prev := [mkSelectedGift "gift-1" 1; mkSelectedGift "gift-2" 2] in
  selectedEntry "gift-1" (handleGiftSelection "gift-1" 3 prev)
  = Some (mkSelectedGift "gift-1" 3) /\
  selectedEntry "gift-2" (handleGiftSelection "gift-1" 3 prev)
  = Some (mkSelectedGift "gift-2" 2) /\
  handleGiftSelection "gift-1" 0 prev = [mkSelectedGift "gift-2" 2].
Proof.
  intros prev.
  assert (Hnd : NoDup (map selected_id prev)).
  { repeat constructor; simpl; intuition discriminate. }
  destruct (handleGiftSelection_sets_the_entry "gift-1" 3 prev Hnd)
    as (_ & Hother & Hset & _).
  split; [apply Hset; lia|]. split; [|reflexivity].
  rewrite Hother by discriminate. reflexivity.
Defined.

(* ------------------------------------------------------------------ *)
(** ** The selection stays within the stock *)

Lemma selectedQuantity_entry (gift : Gift) (l : list SelectedGift) :
  selectedQuantity gift l
  = match selectedEntry (gift_id gift) l with
    | Some s => selected_quantity s
    | None => 0%Z
    end.
Proof. reflexivity. Qed.

Lemma withinStock_tap (inventory : list Gift) (gift : Gift) (l : list SelectedGift) :
  In gift inventory -> withinStock inventory l -> withinStock inventory (onGiftTap gift l).
Proof.
  intros Hin [Hnd Hall]. unfold onGiftTap. rewrite selectedQuantity_entry.
  fold (selectedEntry (gift_id gift) l).
  destruct (selectedEntry (gift_id gift) l) as [s0|] eqn:Hfind.
  - destruct (selected_quantity s0 <? gift_quantity gift)%Z eqn:Hroom; [|split; assumption].
    apply Z.ltb_lt in Hroom. split.
    + rewrite (map_requantify_ids (gift_id gift) (fun s => (selected_quantity s + 1)%Z)).
      exact Hnd.
    + rewrite Forall_forall in *. intros x Hx.
      apply in_map_iff in Hx as (s & <- & Hs).
      destruct (selected_id s =? gift_id gift) eqn:E; [|apply Hall; exact Hs].
      apply String.eqb_eq in E.
      assert (Hsame : s = s0).
      { pose proof (selectedEntry_unique l s Hnd Hs) as Hu. rewrite E, Hfind in Hu.
        congruence. }
      subst s0. destruct (Hall s Hs) as (g & _ & _ & Hq).
      exists gift. cbn. split; [exact Hin|split; [symmetry; exact E|lia]].
  - destruct (0 <? gift_quantity gift)%Z eqn:Hroom; [|split; assumption].
    apply Z.ltb_lt in Hroom. split.
    + rewrite map_app. simpl. apply NoDup_app; [exact Hnd|repeat constructor; intros []|].
      intros x Hx [<-|[]]. apply (proj1 (selectedEntry_none _ _) Hfind). exact Hx.
    + apply Forall_app. split; [exact Hall|]. constructor; [|constructor].
      exists gift. cbn. split; [exact Hin|split; [reflexivity|lia]].
Qed.

Lemma withinStock_minus (inventory : list Gift) (gift : Gift) (l : list SelectedGift) :
  withinStock inventory l -> withinStock inventory (onGiftMinus gift l).
Proof.
  intros [Hnd Hall]. unfold onGiftMinus. split.
  - apply NoDup_map_filter.
    rewrite (map_requantify_ids (gift_id gift) (fun s => (selected_quantity s - 1)%Z)).
    exact Hnd.
  - rewrite Forall_forall in *. intros x Hx.
    apply filter_In in Hx as [Hx Hpos]. rewrite Z.gtb_ltb in Hpos. apply Z.ltb_lt in Hpos.
    apply in_map_iff in Hx as (s & <- & Hs).
    destruct (Hall s Hs) as (g & Hg & Hid & Hq).
    destruct (selected_id s =? gift_id gift); [|exists g; auto].
    cbn in *. exists g. split; [exact Hg|split; [exact Hid|lia]].
Qed.

Lemma withinStock_selectAll (inventory : list Gift) :
  NoDup (map gift_id inventory) -> withinStock inventory (selectAllGifts inventory).
Proof.
  intros Hnd. unfold selectAllGifts. split.
  - rewrite map_map. cbn. apply NoDup_map_filter. exact Hnd.
  - rewrite Forall_forall. intros x Hx.
    apply in_map_iff in Hx as (g & <- & Hg). apply filter_In in Hg as [Hg Hpos].
    rewrite Z.gtb_ltb in Hpos. apply Z.ltb_lt in Hpos.
    exists g. cbn. split; [exact Hg|split; [reflexivity|lia]].
Qed.

Lemma withinStock_pick (inventory : list Gift) (p : Pick) (l : list SelectedGift) :
  NoDup (map gift_id inventory) -> offered inventory p ->
  withinStock inventory l -> withinStock inventory (pick inventory p l).
Proof.
  intros Hnd Hp Hl. destruct p as [gift|gift|]; cbn [pick].
  - apply withinStock_tap; [|exact Hl]. cbn in Hp. apply filter_In in Hp as [Hp _]. exact Hp.
  - apply withinStock_minus. exact Hl.
  - apply withinStock_selectAll. exact Hnd.
Qed.

(** X5.  Whatever the user does in the gift popup (taps on the cards
    shown, minus buttons, Select All), starting from the empty selection
    and with an inventory that lists each gift once, the selection names
    each gift at most once, and of each gift a number that is positive and
    no more than the inventory holds. *)
Theorem picks_stay_within_stock :
  forall (inventory : list Gift) (ps : list Pick),
    NoDup (map gift_id inventory) ->
    Forall (offered inventory) ps ->
    withinStock inventory (picks inventory ps).
Proof.
  intros inventory ps Hnd Hps. unfold picks.
  assert (Hinit : withinStock inventory []) by (split; constructor).
  revert Hinit. generalize (@nil SelectedGift) as l.
  induction Hps as [|p ps Hp Hps IH]; intros l Hl; [exact Hl|].
  cbn [fold_left]. apply IH. apply withinStock_pick; assumption.
Qed.

(** X5 on two gifts, two owned of the first: a third tap on it does not
    go through. *)
Lemma picks_stay_within_stock_witness :
  let g1 := mkGift "gift-1" "🎁" 0.1 2 in
  let g2 := mkGift "gift-2" "💎" 0.5 1 in
  let ps := [PickTap g1; PickTap g1; PickTap g1; PickTap g2; PickMinus g2] in
  picks [g1; g2] ps = [mkSelectedGift "gift-1" 2] /\
  withinStock [g1; g2] (picks [g1; g2] ps).
Proof.
  intros g1 g2 ps. split; [reflexivity|].
  apply (picks_stay_within_stock [g1; g2] ps).
  - repeat constructor; simpl; intuition discriminate.
  - repeat (apply Forall_cons; [unfold offered, cardsShown; simpl; auto|]).
    apply Forall_nil.
Defined.

(* ------------------------------------------------------------------ *)
(** ** What a confirmed selection is worth *)

(** The value one entry of the selection adds to the tally. *)
Local Abbreviation entryValue inventory s :=
  (match find (fun g => gift_id g =? selected_id s) inventory with
   | Some gift => gift_value gift * inject_Z (selected_quantity s)
   | None => 0
   end).

Lemma tally_total (inventory : list Gift) :
  forall (selected : list SelectedGift) (acc : GiftTally) (a : Q),
    a == totalGiftValue acc ->
    fold_left (fun total s => total + entryValue inventory s) selected a
    == totalGiftValue (fold_left (tallyStep inventory) selected acc).
Proof.
  induction selected as [|s l IH]; intros acc a Ha; simpl; [exact Ha|].
  apply IH. unfold tallyStep.
  destruct (find (fun g => gift_id g =? selected_id s) inventory) as [gift|]; simpl.
  - rewrite Ha. reflexivity.
  - rewrite Ha. ring.
Qed.

(** X7.  [getTotalGiftValue()] is the gift value [confirmGiftSelection]
    goes on to stake: the two sums over the selection agree, entries that
    are not in the inventory counting for nothing in both. *)
Theorem getTotalGiftValue_is_the_value_confirmed :
  forall (inventory : list Gift) (selected : list SelectedGift),
    getTotalGiftValue inventory selected
    == totalGiftValue (tallyGifts inventory selected).
Proof.
  intros inventory selected. unfold getTotalGiftValue, tallyGifts.
  apply tally_total. reflexivity.
Qed.

(** Sums over a list, from the right. *)
Local Abbreviation sumOver f l := (fold_right (fun x s => f x + s) 0 l).

Lemma fold_left_sum {A} (f : A -> Q) (l : list A) :
  forall a, fold_left (fun s x => s + f x) l a == a + sumOver f l.
Proof.
  induction l as [|x l IH]; intros a; simpl; [ring|]. rewrite IH. ring.
Qed.

Lemma sumOver_ext {A} (f g : A -> Q) (l : list A) :
  (forall x, In x l -> f x == g x) -> sumOver f l == sumOver g l.
Proof.
  induction l as [|x l IH]; intros H; simpl; [reflexivity|].
  rewrite (H x) by (left; reflexivity). rewrite IH; [reflexivity|].
  intros y Hy. apply H. right. exact Hy.
Qed.

Lemma sumOver_plus {A} (f g : A -> Q) (l : list A) :
  sumOver (fun x => f x + g x) l == sumOver f l + sumOver g l.
Proof. induction l as [|x l IH]; simpl; [ring|]. rewrite IH. ring. Qed.


Lemma tally_as_sum (inventory : list Gift) (selected : list SelectedGift) :
  totalGiftValue (tallyGifts inventory selected)
  == sumOver (fun s => entryValue inventory s) selected.
Proof.
  unfold tallyGifts.
  rewrite <- (tally_total inventory selected (mkGiftTally [] 0 []) 0) by reflexivity.
  rewrite (fold_left_sum (fun s => entryValue inventory s)). ring.
Qed.

Lemma inventoryValue_as_sum (inventory : list Gift) :
  inventoryValue inventory
  == sumOver (fun g => gift_value g * inject_Z (gift_quantity g)) inventory.
Proof.
  unfold inventoryValue.
  rewrite (fold_left_sum (fun g => gift_value g * inject_Z (gift_quantity g))). ring.
Qed.

(** What [reduceInventory] does to one gift. *)
Lemma reduceInventory_map (selected : list SelectedGift) (inventory : list Gift) :
  reduceInventory selected inventory
  = map (fun g => mkGift (gift_id g) (emoji g) (gift_value g)
                         (gift_quantity g - selectedQuantity g selected)) inventory.
Proof.
  unfold reduceInventory, selectedQuantity. apply map_ext. intros g.
  destruct (find (fun s => selected_id s =? gift_id g) selected) as [s|]; [reflexivity|].
  destruct g. cbn. rewrite Z.sub_0_r. reflexivity.
Qed.

Lemma NoDup_map_eq {A B} (f : A -> B) (l : list A) (x y : A) :
  NoDup (map f l) -> In x l -> In y l -> f x = f y -> x = y.
Proof.
  induction l as [|z l IH]; simpl; intros Hnd Hx Hy Hf; [destruct Hx|].
  inversion Hnd as [|? ? Hz Hl]; subst.
  destruct Hx as [->|Hx], Hy as [->|Hy]; auto.
  - exfalso. apply Hz. rewrite Hf. apply in_map. exact Hy.
  - exfalso. apply Hz. rewrite <- Hf. apply in_map. exact Hx.
Qed.

Lemma find_gift_unique (inventory : list Gift) (g : Gift) :
  NoDup (map gift_id inventory) -> In g inventory ->
  find (fun g' => gift_id g' =? gift_id g) inventory = Some g.
Proof.
  induction inventory as [|x l IH]; simpl; intros Hnd Hin; [destruct Hin|].
  inversion Hnd as [|? ? Hx Hl]; subst.
  destruct Hin as [->|Hin].
  - rewrite String.eqb_refl. reflexivity.
  - destruct (gift_id x =? gift_id g) eqn:E; [|apply IH; assumption].
    apply String.eqb_eq in E. exfalso. apply Hx. rewrite E. apply in_map. exact Hin.
Qed.





Lemma filter_nil_when {A} (P : A -> bool) (l : list A) :
  (forall x, In x l -> P x = false) -> filter P l = [].
Proof.
  induction l as [|x l IH]; intros H; simpl; [reflexivity|].
  rewrite (H x) by (left; reflexivity). apply IH. intros y Hy. apply H. right. exact Hy.
Qed.

Lemma sumOver_map {A B} (f : B -> Q) (h : A -> B) (l : list A) :
  fold_right (fun x s => f x + s) 0 (map h l)
  = fold_right (fun x s => f (h x) + s) 0 l.
Proof. induction l as [|x l IH]; simpl; [reflexivity|]. rewrite IH. reflexivity. Qed.

(** X8.  Select All followed by Confirm stakes the whole stock: on an
    inventory that lists each gift once, the selection [selectAllGifts]
    makes is worth the value of the cards the popup shows, and once
    [confirmGiftSelection] has reduced the inventory by it, the popup has
    no card left to show. *)
Theorem select_all_stakes_the_whole_stock :
  forall inventory : list Gift,
    NoDup (map gift_id inventory) ->
    totalGiftValue (tallyGifts inventory (selectAllGifts inventory))
    == inventoryValue (cardsShown inventory) /\
    cardsShown (reduceInventory (selectAllGifts inventory) inventory) = [].
Proof.
  intros inventory Hinv.
  destruct (withinStock_selectAll inventory Hinv) as [Hnd _].
  split.
  - rewrite tally_as_sum, inventoryValue_as_sum. unfold selectAllGifts, cardsShown.
    rewrite (sumOver_map (fun s => match find (fun g => gift_id g =? selected_id s) inventory with
                                   | Some gift => gift_value gift * inject_Z (selected_quantity s)
                                   | None => 0
                                   end)).
    apply sumOver_ext. intros g Hg. apply filter_In in Hg as [Hg _]. cbn.
    rewrite (find_gift_unique inventory g Hinv Hg). reflexivity.
  - unfold cardsShown. rewrite reduceInventory_map. apply filter_nil_when.
    intros g' Hg'. apply in_map_iff in Hg' as (g & <- & Hg). cbn.
    rewrite Z.gtb_ltb. apply Z.ltb_ge.
    rewrite selectedQuantity_entry.
    destruct (gift_quantity g >? 0)%Z eqn:Hpos.
    + assert (He : In (mkSelectedGift (gift_id g) (gift_quantity g))
                      (selectAllGifts inventory)).
      { unfold selectAllGifts. apply in_map_iff. exists g. split; [reflexivity|].
        apply filter_In. auto. }
      pose proof (selectedEntry_unique _ _ Hnd He) as Hu. cbn in Hu. rewrite Hu. cbn. lia.
    + rewrite Z.gtb_ltb in Hpos. apply Z.ltb_ge in Hpos.
      destruct (selectedEntry (gift_id g) (selectAllGifts inventory)) as [s|] eqn:Hfind;
        [|lia].
      apply selectedEntry_id in Hfind as [Hs Hid]. unfold selectAllGifts in Hs.
      apply in_map_iff in Hs as (g0 & <- & Hg0). apply filter_In in Hg0 as [Hg0 Hpos0].
      cbn in Hid. assert (g0 = g) by (apply (NoDup_map_eq gift_id inventory); auto).
      subst g0. cbn. lia.
Qed.

(** X8 on an inventory of two kinds, one of them used up. *)
Lemma select_all_stakes_the_whole_stock_witness :
  let inventory := [mkGift "gift-1" "🎁" 0.1 3; mkGift "gift-2" "💎" 0.5 0] in
  totalGiftValue (tallyGifts inventory (selectAllGifts inventory))
  == inventoryValue (cardsShown inventory) /\
  cardsShown (reduceInventory (selectAllGifts inventory) inventory) = [].
Proof.
  intros inventory. apply (select_all_stakes_the_whole_stock inventory).
  repeat constructor; simpl; intuition discriminate.
Defined.

(* ------------------------------------------------------------------ *)
(** ** The names in a round filled by joins *)

Lemma existsb_name_false (n : string) (l : list Player) :
  existsb (fun p => name p =? n) l = false -> ~ In n (map name l).
Proof.
  intros H Hin. apply in_map_iff in Hin as (p & Hp & Hin).
  assert (E : existsb (fun p => name p =? n) l = true).
  { apply existsb_exists. exists p. split; [exact Hin|]. rewrite Hp. apply String.eqb_refl. }
  congruence.
Qed.

Lemma find_name_none (n : string) (l : list Player) :
  find (fun p => name p =? n) l = None -> ~ In n (map name l).
Proof.
  intros H Hin. apply in_map_iff in Hin as (p & Hp & Hin).
  pose proof (find_none _ _ H p Hin) as E. cbn in E. rewrite Hp, String.eqb_refl in E.
  discriminate.
Qed.

Lemma NoDup_snoc {A} (l : list A) (x : A) : NoDup l -> ~ In x l -> NoDup (l ++ [x]).
Proof.
  intros Hl Hx. apply NoDup_app; [exact Hl|repeat constructor; intros []|].
  intros y Hy [<-|[]]. exact (Hx Hy).
Qed.

Lemma addGiftsTo_names (n : string) (tally : GiftTally) (l : list Player) :
  map name (map (addGiftsTo n tally) l) = map name l.
Proof.
  rewrite map_map. apply map_ext. intros p. unfold addGiftsTo.
  destruct (name p =? n); reflexivity.
Qed.

(** The players [addPlayer] leaves: the ones it found, or those and one
    more whose name none of them has. *)
Lemma addPlayer_players (v : bool) (now : Z) (rnd1 rnd2 : Q) (c : Client) :
  players (stateOf (addPlayer v now rnd1 rnd2 c)) = players c \/
  exists p, players (stateOf (addPlayer v now rnd1 rnd2 c)) = players c ++ [p] /\
            ~ In (name p) (map name (players c)).
Proof.
  unfold addPlayer.
  destruct ((trim (playerName (form c)) =? "")
            || badBalance (parseInt (playerBalance (form c)))); [left; reflexivity|].
  destruct (existsb _ (players c)) eqn:Hdup; [left; reflexivity|].
  destruct (15 <=? length (players c))%nat; [left; reflexivity|].
  right. eexists. split.
  - destruct v; [destruct (currentGameId (hook c)) as [g|];
                 [destruct ((length (players c) =? 1)%nat && truthy (Some g))|]|];
      reflexivity.
  - cbn. apply existsb_name_false. exact Hdup.
Qed.

(** The players [confirmGiftSelection] leaves: the ones it found; or those
    with the gifts added to every player of the name; or those and one
    more whose name none of them has. *)
Lemma confirmGiftSelection_players (v : bool) (now : Z) (fetched : Resp (option GameRow))
      (created : Resp GameRow) (joined : Resp string) (c : Client) :
  let out := confirmGiftSelection v now fetched created joined c in
  let tally := tallyGifts (userInventory (form c)) (selectedGifts (form c)) in
  (players (stateOf out) = players c /\
   resultOf out <> Joined /\ resultOf out <> AddedGifts)
  \/
  (resultOf out = AddedGifts /\
   In (joinName c) (map name (players c)) /\
   players (stateOf out) = map (addGiftsTo (joinName c) tally) (players c))
  \/
  (resultOf out = Joined /\
   ~ In (joinName c) (map name (players c)) /\
   exists p, players (stateOf out) = players c ++ [p] /\
             name p = joinName c /\ giftValue p = totalGiftValue tally).
Proof.
  intros out tally. subst out. unfold confirmGiftSelection.
  destruct (length (selectedGifts (form c)) =? 0)%nat.
  { left. cbn. repeat split; discriminate. }
  destruct (joinName c =? "").
  { left. cbn. repeat split; discriminate. }
  destruct (15 <=? length (players c))%nat.
  { left. cbn. repeat split; discriminate. }
  fold tally.
  set (db := joinInDatabase c (joinName c) tally fetched created joined c).
  destruct (joinInDatabase_hookOnly c (joinName c) tally fetched created joined c)
    as (Hs & _ & _).
  fold db in Hs. rewrite bind_run. fold db.
  destruct (resultOf db); cbn [negb].
  2:{ left. cbn. rewrite Hs. repeat split; discriminate. }
  destruct (find (fun p => name p =? joinName c) (players c)) as [existing|] eqn:Hfind.
  - right. left. rewrite Hs. cbn. repeat split.
    apply find_some in Hfind as [Hin Heq]. apply String.eqb_eq in Heq.
    rewrite <- Heq. apply in_map. exact Hin.
  - right. right. apply find_name_none in Hfind. rewrite Hs.
    destruct v; cbn;
      [destruct (currentGameId (hook c)) as [g|]; cbn;
       [destruct ((length (players c) =? 1)%nat && negb (g =? "")); cbn|]|];
      (repeat split; [exact Hfind|eexists; repeat split; reflexivity]).
Qed.

Lemma names_step (v : bool) (ev : Event) (c : Client) :
  isJoinEvent ev = true -> NoDup (map name (players c)) ->
  NoDup (map name (players (stateOf (handle v ev c)))).
Proof.
  intros Hev Hnd. destruct ev; try discriminate Hev; try exact Hnd; cbn [handle];
    rewrite stateOf_forget.
  - destruct (addPlayer_players v now rnd1 rnd2 c) as [->|(p & -> & Hp)]; [exact Hnd|].
    rewrite map_app. apply NoDup_snoc; assumption.
  - destruct (confirmGiftSelection_players v now fetched created joined c)
      as [(-> & _)|[(_ & _ & ->)|(_ & Hnew & p & -> & Hname & _)]].
    + exact Hnd.
    + rewrite addGiftsTo_names. exact Hnd.
    + rewrite map_app. apply NoDup_snoc; [exact Hnd|]. cbn. rewrite Hname. exact Hnew.
Qed.

(** X13.  In a round filled by joins, no two local players share a name:
    [addPlayer] turns a taken name away, and [confirmGiftSelection] adds
    the gifts to the player of that name instead of listing it twice. *)
Theorem joins_keep_names_distinct :
  forall (v : bool) (evs : list Event) (c : Client),
    NoDup (map name (players c)) ->
    Forall (fun ev => isJoinEvent ev = true) evs ->
    NoDup (map name (players (runClient v evs c))).
Proof.
  intros v evs. induction evs as [|ev evs IH]; intros c Hnd Hevs; [exact Hnd|].
  inversion Hevs as [|? ? Hev Hrest]; subst. cbn [runClient].
  apply IH; [|exact Hrest]. apply names_step; assumption.
Qed.

(** X13 on ann and bob, with bob trying to join a second time. *)
Lemma joins_keep_names_distinct_witness :
  let evs := twoJoins ++ [EvTypeName "bob"; EvTypeBalance "30"; EvAddPlayer 3 0.3 0.3] in
  map name (players (runClient false evs initialClient)) = ["ann"; "bob"] /\
  NoDup (map name (players (runClient false evs initialClient))).
Proof.
  intros evs. split; [vm_compute; reflexivity|].
  apply (joins_keep_names_distinct false evs initialClient).
  - constructor.
  - repeat constructor.
Defined.

(* ------------------------------------------------------------------ *)
(** ** What a confirmed selection adds to the pot *)







(* ------------------------------------------------------------------ *)
(** ** The match history view *)

Section SortFacts.
Context {T : Type}.
Variables (compareFn : T -> T -> Q) (key : T -> Q).
Hypothesis compare_key : forall a b, compareFn a b <= 0 <-> key a <= key b.







End SortFacts.


(* ------------------------------------------------------------------ *)
(** ** The label in the centre of the wheel *)

(** X10.  The centre of the wheel reads "Spinning!" in exactly the states
    in which the auto-spin effect calls [spinWheel]: countdown at 0, no
    spin under way, at least two active players.  When it shows a number
    of seconds, that number is the countdown and is positive. *)
Theorem spinning_label_is_the_auto_spin_guard :
  forall c : Client,
    (timerStatus c = StatusSpinning <-> autoSpinGuard c = true) /\
    (forall t, timerStatus c = StatusNext t ->
               gameCountdown (hook c) = Some t /\ (0 < t)%Z /\ autoSpinGuard c = false).
Proof.
  intros c. unfold timerStatus, autoSpinGuard, countdownIsZero.
  destruct (length (activePlayersOf (dbPlayers (hook c)) (players c)) <? 2)%nat eqn:Hfew.
  - apply Nat.ltb_lt in Hfew.
    assert (Hle : (2 <=? length (activePlayersOf (dbPlayers (hook c)) (players c)))%nat
                  = false) by (apply Nat.leb_gt; exact Hfew).
    rewrite Hle, andb_false_r. split; [split; discriminate|discriminate].
  - apply Nat.ltb_ge in Hfew.
    assert (Hle : (2 <=? length (activePlayersOf (dbPlayers (hook c)) (players c)))%nat
                  = true) by (apply Nat.leb_le; exact Hfew).
    rewrite Hle, andb_true_r.
    destruct (isSpinning c).
    + rewrite andb_false_r. split; [split; discriminate|discriminate].
    + rewrite andb_true_r.
      destruct (gameCountdown (hook c)) as [t|]; [|split; [split; discriminate|discriminate]].
      destruct (t >? 0)%Z eqn:Hpos.
      * rewrite Z.gtb_ltb in Hpos. apply Z.ltb_lt in Hpos.
        assert (Hz : (t =? 0)%Z = false) by (apply Z.eqb_neq; lia).
        rewrite Hz. split; [split; discriminate|].
        intros t' Ht'. injection Ht' as <-. auto.
      * destruct (t =? 0)%Z; split; try discriminate; split; auto; discriminate.
Qed.

(* ------------------------------------------------------------------ *)
(** ** Parts of the state a handler leaves alone *)

Lemma keeps_ret {T R} (part : Client -> T) (r : R) : keeps part (ret r).
Proof. intros c. reflexivity. Qed.

Lemma keeps_call {T} (part : Client -> T) (d : DbCall) : keeps part (call d).
Proof. intros c. reflexivity. Qed.

Lemma keeps_update {T} (part : Client -> T) (f : Client -> Client) :
  (forall c, part (f c) = part c) -> keeps part (update f).
Proof. intros H c. apply H. Qed.

Lemma keeps_bind {T R S} (part : Client -> T) (m : Handler R) (k : R -> Handler S) :
  keeps part m -> (forall r, keeps part (k r)) -> keeps part (bind m k).
Proof.
  intros Hm Hk c. rewrite stateOf_bind. rewrite Hk. apply Hm.
Qed.

Lemma keeps_when {T} (part : Client -> T) (b : bool) (m : Handler unit) :
  keeps part m -> keeps part (when b m).
Proof. destruct b; [auto|intros _; apply keeps_ret]. Qed.

Lemma keeps_forget {T R} (part : Client -> T) (m : Handler R) :
  keeps part m -> keeps part (forget m).
Proof. intros H. apply keeps_bind; [exact H|intros r; apply keeps_ret]. Qed.

Ltac keeps_step :=
  match goal with
  | |- keeps _ (match ?x with _ => _ end) => destruct x
  | |- keeps _ (if ?b then _ else _) => destruct b
  | |- keeps _ (bind _ _) => apply keeps_bind; [|intros ?]
  | |- keeps _ (ret _) => apply keeps_ret
  | |- keeps _ (call _) => apply keeps_call
  | |- keeps _ (when _ _) => apply keeps_when
  | |- keeps _ (forget _) => apply keeps_forget
  | |- keeps _ (update _) => apply keeps_update; intros ?; reflexivity
  | |- keeps _ _ => solve [auto]
  end.

Ltac keeps_all := repeat keeps_step.

(** The same for a handler written as a function of the state it closes
    over: the body, applied to that state. *)
Ltac keeps_here part :=
  match goal with
  | |- context [stateOf (?m ?c)] =>
      let K := fresh "K" in
      assert (K : keeps part m) by keeps_all; exact (K c)
  end.

Lemma updateInventoryCalls_keeps {T} (part : Client -> T) (playerId : string)
      (l : list GiftSelection) : keeps part (updateInventoryCalls playerId l).
Proof. induction l as [|sel l IH]; cbn [updateInventoryCalls]; keeps_all. Qed.

Lemma addToLog_keeps (now : Z) (msg : Message) (type : LogType) :
  keeps clockAndHistory (addToLog now msg type).
Proof. unfold addToLog. keeps_all. Qed.

Lemma getCurrentGame_keeps (n : Z) (fetched : Resp (option GameRow))
      (created : Resp GameRow) : keeps clockAndHistory (getCurrentGame n fetched created).
Proof. unfold getCurrentGame. keeps_all. Qed.

Lemma joinGameWithGifts_keeps (gameId playerId : string) (sels : list GiftSelection)
      (color' : string) (pos : nat) (joined : Resp string) :
  keeps clockAndHistory (joinGameWithGifts gameId playerId sels color' pos joined).
Proof.
  unfold joinGameWithGifts.
  pose proof (updateInventoryCalls_keeps clockAndHistory playerId sels). keeps_all.
Qed.

Lemma joinInDatabase_keeps (c0 : Client) (name' : string) (tally : GiftTally)
      (fetched : Resp (option GameRow)) (created : Resp GameRow) (joined : Resp string) :
  keeps clockAndHistory (joinInDatabase c0 name' tally fetched created joined).
Proof.
  unfold joinInDatabase, addGameLog.
  pose proof (getCurrentGame_keeps (rollNumber c0) fetched created).
  pose proof (fun g => joinGameWithGifts_keeps g
                (match currentPlayer (hook c0) with Some me => row_id me | None => "" end)
                (giftSelections tally)
                (colorAt (length (players c0) mod length COLORS))
                (length (players c0)) joined) as Hjoin.
  destruct (currentPlayer (hook c0)) as [me|]; keeps_all.
Qed.

Lemma addPlayer_keeps (v : bool) (now : Z) (rnd1 rnd2 : Q) :
  keeps clockAndHistory (addPlayer v now rnd1 rnd2).
Proof.
  intros c. unfold addPlayer.
  destruct ((trim (playerName (form c)) =? "")
            || badBalance (parseInt (playerBalance (form c)))); [reflexivity|].
  destruct (existsb _ (players c)); [reflexivity|].
  destruct (15 <=? length (players c))%nat; [reflexivity|].
  pose proof (addToLog_keeps now) as Hlog. unfold startGameCountdown.
  keeps_here clockAndHistory.
Qed.

Lemma confirmGiftSelection_keeps (v : bool) (now : Z) (fetched : Resp (option GameRow))
      (created : Resp GameRow) (joined : Resp string) :
  keeps clockAndHistory (confirmGiftSelection v now fetched created joined).
Proof.
  intros c. unfold confirmGiftSelection.
  destruct (length (selectedGifts (form c)) =? 0)%nat; [reflexivity|].
  destruct (joinName c =? ""); [reflexivity|].
  destruct (15 <=? length (players c))%nat; [reflexivity|].
  pose proof (addToLog_keeps now) as Hlog.
  pose proof (joinInDatabase_keeps c (joinName c)
                (tallyGifts (userInventory (form c)) (selectedGifts (form c)))
                fetched created joined) as Hdb.
  unfold startGameCountdown.
  keeps_here clockAndHistory.
Qed.

Lemma spinWheel_keeps (closureDbPlayers : list Player) (now : Z) (rng : Q) :
  keeps clockAndHistory (spinWheel closureDbPlayers now rng).
Proof.
  intros c. unfold spinWheel, addGameLog.
  pose proof (addToLog_keeps now) as Hlog.
  destruct (length (activePlayersOf closureDbPlayers (players c)) <? 2)%nat.
  { keeps_here clockAndHistory. }
  destruct (isSpinning c); [reflexivity|].
  keeps_here clockAndHistory.
Qed.

Lemma autoSpinEffect_keeps (closureDbPlayers : list Player) (now : Z) (rng : Q) :
  keeps clockAndHistory (autoSpinEffect closureDbPlayers now rng).
Proof.
  intros c. unfold autoSpinEffect. destruct (autoSpinGuard c); [|reflexivity].
  pose proof (spinWheel_keeps closureDbPlayers now rng).
  keeps_here clockAndHistory.
Qed.

Lemma onResetTimeout_keeps (fetched : Resp (option GameRow)) (created : Resp GameRow) :
  keeps clockAndHistory (onResetTimeout fetched created).
Proof.
  intros c. unfold onResetTimeout. destruct (pendingReset c) as [|cl rest]; [reflexivity|].
  pose proof (getCurrentGame_keeps (sc_rollNumber cl + 1) fetched created).
  keeps_here clockAndHistory.
Qed.

Lemma syncPlayersEffect_keeps : keeps clockAndHistory syncPlayersEffect.
Proof.
  intros c. unfold syncPlayersEffect.
  destruct (0 <? length (dbPlayers (hook c)))%nat; reflexivity.
Qed.

Lemma completeGame_keeps_countdown (gameId winnerId : string) (chance total : Q)
      (now : Z) (updated : Resp GameRow) (logged : Resp unit) :
  keeps (fun c => gameCountdown (hook c))
        (completeGame gameId winnerId chance total now updated logged).
Proof. unfold completeGame. keeps_all. Qed.

Lemma settle_keeps_countdown (cl : SpinClosure) (now : Z) (updated : Resp GameRow)
      (logged : Resp unit) :
  keeps (fun c => gameCountdown (hook c)) (settle cl now updated logged).
Proof.
  unfold settle, addGameLog, loadMatchHistory, addToLog.
  pose proof (fun g w ch t => completeGame_keeps_countdown g w ch t now updated logged).
  keeps_all.
Qed.

Lemma onSpinTimeout_keeps_countdown (now : Z) (updated : Resp GameRow)
      (logged : Resp unit) :
  keeps (fun c => gameCountdown (hook c)) (onSpinTimeout now updated logged).
Proof.
  intros c. unfold onSpinTimeout. destruct (pendingSpin c) as [|cl rest]; [reflexivity|].
  pose proof (settle_keeps_countdown cl now updated logged).
  keeps_here (fun c : Client => gameCountdown (hook c)).
Qed.

(* ------------------------------------------------------------------ *)
(** ** The countdown *)

Lemma handle_keeps_countdown (v : bool) (ev : Event) (c : Client) :
  isCountdownTick ev = false ->
  gameCountdown (hook (stateOf (handle v ev c))) = gameCountdown (hook c).
Proof.
  intros Hev.
  assert (Hfst : forall m : Handler unit,
             keeps clockAndHistory m ->
             gameCountdown (hook (stateOf (m c))) = gameCountdown (hook c)).
  { intros m K. exact (f_equal fst (K c)). }
  destruct ev; try discriminate Hev; cbn [handle]; try reflexivity.
  - apply Hfst, keeps_forget, addPlayer_keeps.
  - apply Hfst, keeps_forget, confirmGiftSelection_keeps.
  - apply Hfst, keeps_forget, getCurrentGame_keeps.
  - apply Hfst. unfold loadGameParticipants. keeps_all.
  - apply Hfst, syncPlayersEffect_keeps.
  - apply Hfst, keeps_forget, autoSpinEffect_keeps.
  - apply (onSpinTimeout_keeps_countdown now updated logged c).
  - apply Hfst, onResetTimeout_keeps.
Qed.

(** What a tick of the countdown interval leaves in [gameCountdown]. *)
Lemma countdownTick_countdown (resp : Resp (option Z)) (c : Client) :
  gameCountdown (hook (stateOf (countdownTick resp c)))
  = match currentGameId (hook c), resp with
    | Some _, Ok (Some t) =>
        if countdownIntervalArmed c then Some (if (t <=? 0)%Z then 0%Z else t)
        else gameCountdown (hook c)
    | Some _, Ok None =>
        if countdownIntervalArmed c then None else gameCountdown (hook c)
    | _, _ => gameCountdown (hook c)
    end.
Proof.
  unfold countdownTick.
  destruct (currentGameId (hook c)) as [g|]; [|destruct resp as [[t|]|m|m]; reflexivity].
  destruct (countdownIntervalArmed c); [|destruct resp as [[t|]|m|m]; reflexivity].
  destruct resp as [[t|]|m|m]; try reflexivity.
  unfold getGameCountdown. rewrite !stateOf_bind. cbn.
  destruct (t <=? 0)%Z; reflexivity.
Qed.

(** X11.  The countdown a client holds is written by the ticks of the
    countdown interval only: no join, store answer, spin or reset sets,
    restarts or clears it (after a round it stays where the last tick left
    it).  A tick clamps what the store reports at 0, so a countdown that is
    not negative stays so through any sequence of events.  And a countdown
    left at 0 stays armed: without a tick in between, the auto-spin effect
    calls [spinWheel] again as soon as no spin is under way and two players
    are active, with no new countdown. *)
Theorem countdown_is_clamped_and_only_ticks_write_it :
  forall (v : bool) (evs : list Event) (c : Client),
    countdownNotNegative c ->
    countdownNotNegative (runClient v evs c) /\
    (Forall (fun ev => isCountdownTick ev = false) evs ->
     gameCountdown (hook (runClient v evs c)) = gameCountdown (hook c) /\
     (gameCountdown (hook c) = Some 0%Z ->
      isSpinning (runClient v evs c) = false ->
      (2 <= length (activePlayersOf (dbPlayers (hook (runClient v evs c)))
                                    (players (runClient v evs c))))%nat ->
      autoSpinGuard (runClient v evs c) = true)).
Proof.
  intros v evs.
  assert (Hguard : forall c c' : Client,
             gameCountdown (hook c') = gameCountdown (hook c) ->
             gameCountdown (hook c) = Some 0%Z -> isSpinning c' = false ->
             (2 <= length (activePlayersOf (dbPlayers (hook c')) (players c')))%nat ->
             autoSpinGuard c' = true).
  { intros c c' Hsame Hzero Hidle Htwo. unfold autoSpinGuard, countdownIsZero.
    rewrite Hsame, Hzero, Hidle. apply Nat.leb_le in Htwo. rewrite Htwo. reflexivity. }
  induction evs as [|ev evs IH]; intros c Hc.
  { split; [exact Hc|]. intros _. split; [reflexivity|]. apply (Hguard c c). reflexivity. }
  cbn [runClient].
  assert (Hstep : countdownNotNegative (stateOf (handle v ev c))).
  { destruct (isCountdownTick ev) eqn:Hev.
    - destruct ev; try discriminate Hev. cbn [handle]. unfold countdownNotNegative.
      rewrite countdownTick_countdown.
      destruct (currentGameId (hook c)) as [g|]; [|exact Hc].
      destruct resp as [[t|]|m|m]; try exact Hc;
        (destruct (countdownIntervalArmed c); [|exact Hc]).
      + destruct (t <=? 0)%Z eqn:Ht; [lia|]. apply Z.leb_gt in Ht. lia.
      + exact I.
    - unfold countdownNotNegative. rewrite handle_keeps_countdown by exact Hev. exact Hc. }
  destruct (IH _ Hstep) as [Hrun Hsame]. split; [exact Hrun|].
  intros Hevs. inversion Hevs as [|? ? Hev Hrest]; subst.
  destruct (Hsame Hrest) as [Hkept _].
  assert (Hall : gameCountdown (hook (runClient v evs (stateOf (handle v ev c))))
                 = gameCountdown (hook c)).
  { rewrite Hkept. apply handle_keeps_countdown. exact Hev. }
  split; [exact Hall|]. apply Hguard. exact Hall.
Qed.

(** X11 on ann's client: the store reports 3 seconds, then -2; the spin,
    its settlement and the reset leave the countdown at 0, and with ann
    and bob loaded again the effect spins at once. *)
Lemma countdown_is_clamped_and_only_ticks_write_it_witness :
  let c1 := runClient false [EvCountdownTick (Ok (Some 3%Z))] (clientOf "player-ann") in
  let c2 := runClient false [EvCountdownTick (Ok (Some (-2)%Z))] c1 in
  let round := [EvAutoSpin [ann; bob] 1000 0.5;
                EvSpinTimeout 5000 (Ok game1) (Ok tt);
                EvResetTimeout (Ok (Some game1)) (Err "down")] in
  gameCountdown (hook c1) = Some 3%Z /\
  gameCountdown (hook c2) = Some 0%Z /\
  countdownNotNegative (runClient false round c2) /\
  gameCountdown (hook (runClient false round c2)) = gameCountdown (hook c2) /\
  autoSpinGuard (runClient false round c2) = true.
Proof.
  intros c1 c2 round.
  split; [vm_compute; reflexivity|]. split; [vm_compute; reflexivity|].
  destruct (countdown_is_clamped_and_only_ticks_write_it false round c2) as [Hnn Hsame].
  - vm_compute. discriminate.
  - split; [exact Hnn|].
    destruct Hsame as [Hkept Harmed]; [repeat constructor|].
    split; [exact Hkept|]. apply Harmed.
    + vm_compute. reflexivity.
    + vm_compute. reflexivity.
    + vm_compute. apply le_n.
Defined.

(* ------------------------------------------------------------------ *)
(** ** A client the store has given nothing *)






(* ------------------------------------------------------------------ *)
(** ** The local match history *)

Lemma countdownTick_keeps_history (resp : Resp (option Z)) :
  keeps matchHistory (countdownTick resp).
Proof.
  intros c. unfold countdownTick, getGameCountdown.
  destruct (currentGameId (hook c)) as [g|]; [|reflexivity].
  destruct (countdownIntervalArmed c); [|reflexivity].
  keeps_here matchHistory.
Qed.

(** Only the settlement of a spin writes the local match history. *)
Lemma handle_keeps_history (v : bool) (ev : Event) (c : Client) :
  (forall now updated logged, ev <> EvSpinTimeout now updated logged) ->
  matchHistory (stateOf (handle v ev c)) = matchHistory c.
Proof.
  intros Hev.
  assert (Hsnd : forall m : Handler unit,
             keeps clockAndHistory m -> matchHistory (stateOf (m c)) = matchHistory c).
  { intros m K. exact (f_equal snd (K c)). }
  destruct ev; cbn [handle]; try reflexivity.
  - apply Hsnd, keeps_forget, addPlayer_keeps.
  - apply Hsnd, keeps_forget, confirmGiftSelection_keeps.
  - apply Hsnd, keeps_forget, getCurrentGame_keeps.
  - apply Hsnd. unfold loadGameParticipants. keeps_all.
  - apply Hsnd, syncPlayersEffect_keeps.
  - apply countdownTick_keeps_history.
  - apply Hsnd, keeps_forget, autoSpinEffect_keeps.
  - exfalso. exact (Hev now updated logged eq_refl).
  - apply Hsnd, onResetTimeout_keeps.
Qed.

(** The closure a spin arms holds the roll number shown. *)
Lemma autoSpin_closure (closureDbPlayers : list Player) (now : Z) (rng : Q) (c : Client) :
  let c' := stateOf (autoSpinEffect closureDbPlayers now rng c) in
  session c' = session c
  \/
  (isSpinning c = false /\
   exists cl,
     (sc_rollNumber cl = rollNumber c /\ closureOfADraw cl) /\
     isSpinning c' = true /\ rollNumber c' = rollNumber c /\
     pendingSpin c' = pendingSpin c ++ [cl] /\ pendingReset c' = pendingReset c).
Proof.
  intros c'. subst c'. unfold autoSpinEffect.
  destruct (autoSpinGuard c) eqn:Hguard; [|left; reflexivity].
  assert (Hspin : isSpinning c = false).
  { unfold autoSpinGuard in Hguard. apply andb_true_iff in Hguard as [Hguard _].
    apply andb_true_iff in Hguard as [_ Hguard]. apply negb_true_iff. exact Hguard. }
  rewrite stateOf_bind. unfold spinWheel. rewrite Hspin.
  destruct (length (activePlayersOf closureDbPlayers (players c)) <? 2)%nat eqn:Hfew.
  { left. reflexivity. }
  apply Nat.ltb_ge in Hfew.
  right. split; [reflexivity|].
  exists (mkSpinClosure
            (selectWinner (activePlayersOf closureDbPlayers (players c)) rng)
            (activePlayersOf closureDbPlayers (players c))
            (totalValue (activePlayersOf closureDbPlayers (players c)))
            (currentGameId (hook c)) (currentPlayer (hook c)) (rollNumber c)).
  split.
  { split; [reflexivity|]. split; [exact Hfew|]. split; [reflexivity|].
    intros w Hw. cbn in Hw. apply selectWinner_In in Hw. exact Hw. }
  destruct (currentGameId (hook c)) as [g|]; cbn;
    [destruct (negb (g =? "")); cbn|]; repeat split; reflexivity.
Qed.

(** What the settlement of a spin adds to the history. *)
Lemma settle_history (cl : SpinClosure) (now : Z) (updated : Resp GameRow)
      (logged : Resp unit) (c : Client) :
  matchHistory (stateOf (settle cl now updated logged c))
  = match sc_selectedWinner cl with
    | Some w =>
        mkMatchHistoryEntry (toString now) (sc_rollNumber cl) now (sc_activePlayers cl) w
          (totalGiftValueOf (sc_activePlayers cl))
          (playerValue w / sc_totalValue cl * 100)
        :: matchHistory c
    | None => matchHistory c
    end.
Proof.
  unfold settle. destruct (sc_selectedWinner cl) as [w|]; [|reflexivity].
  destruct (sc_currentGameId cl) as [g|]; [destruct (sc_currentPlayer cl) as [me|]|];
    try reflexivity.
  destruct (truthy (Some g)); [|reflexivity].
  destruct updated as [row|m|m]; [destruct logged as [u|m|m]| |]; reflexivity.
Qed.

Lemma rollsFrom_length (first : Z) (n : nat) : length (rollsFrom first n) = n.
Proof. induction n as [|n IH]; simpl; [reflexivity|]. rewrite IH. reflexivity. Qed.

Lemma history_step (v : bool) (ev : Event) (c c0 : Client) (recent : list MatchHistoryEntry) :
  oneInFlight c ->
  matchHistory c = recent ++ matchHistory c0 ->
  rollNumber c = (rollNumber c0 + Z.of_nat (length recent))%Z ->
  map entry_rollNumber recent = rollsFrom (rollNumber c0) (length recent) ->
  exists recent',
    oneInFlight (stateOf (handle v ev c)) /\
    matchHistory (stateOf (handle v ev c)) = recent' ++ matchHistory c0 /\
    rollNumber (stateOf (handle v ev c)) = (rollNumber c0 + Z.of_nat (length recent'))%Z /\
    map entry_rollNumber recent' = rollsFrom (rollNumber c0) (length recent').
Proof.
  intros Hfl Hh Hr Hn.
  assert (Hkeep : forall c', session c' = session c -> matchHistory c' = matchHistory c ->
                             exists recent',
                               oneInFlight c' /\
                               matchHistory c' = recent' ++ matchHistory c0 /\
                               rollNumber c' = (rollNumber c0 + Z.of_nat (length recent'))%Z /\
                               map entry_rollNumber recent'
                               = rollsFrom (rollNumber c0) (length recent')).
  { intros c' Hs Hm. exists recent. unfold session in Hs. injection Hs as E1 E2 E3 E4.
    split; [|rewrite Hm, E2; auto].
    unfold oneInFlight. rewrite E1, E2, E3, E4. exact Hfl. }
  destruct (isSpinEvent ev) eqn:Hkind.
  2:{ apply Hkeep.
      - apply other_events_keep_session. exact Hkind.
      - apply handle_keeps_history. intros now updated logged ->. discriminate Hkind. }
  destruct ev; try discriminate Hkind; cbn [handle].
  - (* the auto-spin effect *)
    rewrite stateOf_forget.
    pose proof (autoSpinEffect_keeps closureDbPlayers now rng c) as Hk.
    apply (f_equal snd) in Hk. cbn in Hk.
    destruct (autoSpin_closure closureDbPlayers now rng c)
      as [Hs|(Hidle & cl & (Hcl & _) & H1 & H2 & H3 & H4)]; [apply Hkeep; assumption|].
    exists recent. split; [|rewrite Hk, H2; auto].
    destruct Hfl as [(_ & Hps & Hpr)|[(cl' & Hsp & _)|(cl' & Hsp & _)]]; try congruence.
    right. left. exists cl. rewrite H1, H2, H3, H4, Hps, Hpr. auto.
  - (* the spin timeout *)
    unfold onSpinTimeout.
    destruct Hfl as [(Hsp & Hps & Hpr)|[(cl & Hsp & Hps & Hpr & Hcl)|(cl & Hsp & Hps & Hpr)]].
    + rewrite Hps. exists recent. split; [left; auto|auto].
    + rewrite Hps. rewrite stateOf_bind.
      destruct (settle_session cl now updated logged
                  (stateOf (update (set_pendingSpin []) c))) as (H1 & H2 & H3 & H4).
      rewrite settle_history. cbn [update stateOf fst snd resultOf] in *.
      change (matchHistory (set_pendingSpin [] c)) with (matchHistory c).
      change (isSpinning (set_pendingSpin [] c)) with (isSpinning c) in H1.
      change (pendingSpin (set_pendingSpin [] c)) with (@nil SpinClosure) in H2.
      change (pendingReset (set_pendingSpin [] c)) with (pendingReset c) in H3.
      change (rollNumber (set_pendingSpin [] c)) with (rollNumber c) in H4.
      destruct (sc_selectedWinner cl) as [w|].
      * eexists (_ :: recent). split; [|split; [|split]].
        -- right. right. exists cl. rewrite H1, H2, H3, Hpr. auto.
        -- rewrite Hh. reflexivity.
        -- rewrite H4, Hr. cbn [length]. lia.
        -- cbn [map length rollsFrom entry_rollNumber]. rewrite Hn, Hcl, Hr. reflexivity.
      * exists recent. split; [|rewrite H4; auto].
        right. right. exists cl. rewrite H1, H2, H3, Hpr. auto.
    + rewrite Hps. exists recent. split; [right; right; exists cl; auto|auto].
  - (* the reset timeout *)
    pose proof (onResetTimeout_keeps fetched created c) as Hk.
    apply (f_equal snd) in Hk. cbn in Hk.
    pose proof (onResetTimeout_step fetched created c) as Hstep. cbn zeta in Hstep.
    destruct Hfl as [(Hsp & Hps & Hpr)|[(cl & Hsp & Hps & Hpr & Hcl)|(cl & Hsp & Hps & Hpr)]];
      rewrite Hpr in Hstep.
    + rewrite Hstep. exists recent. split; [left; auto|auto].
    + rewrite Hstep. exists recent. split; [right; left; exists cl; auto|auto].
    + destruct Hstep as (H1 & H2 & H3 & H4).
      exists recent. split; [left; rewrite H1, H2, H3; auto|rewrite Hk, H4; auto].
Qed.

(** X16.  The local match history numbers the rounds.  From a client with
    no spin under way, whatever events follow (joins, ticks, store answers
    that succeed or fail, effects, timers), the entries added to the
    history are never removed or rewritten, they carry consecutive roll
    numbers starting at the roll number the client showed, newest first,
    and the roll number now shown is the next one. *)
Theorem match_history_numbers_the_rounds :
  forall (v : bool) (evs : list Event) (c0 : Client),
    quiescent c0 ->
    exists recent,
      matchHistory (runClient v evs c0) = recent ++ matchHistory c0 /\
      rollNumber (runClient v evs c0) = (rollNumber c0 + Z.of_nat (length recent))%Z /\
      map entry_rollNumber recent = rollsFrom (rollNumber c0) (length recent).
Proof.
  intros v evs c0 (Hsp & Hps & Hpr).
  assert (Hgen : forall c recent,
             oneInFlight c ->
             matchHistory c = recent ++ matchHistory c0 ->
             rollNumber c = (rollNumber c0 + Z.of_nat (length recent))%Z ->
             map entry_rollNumber recent = rollsFrom (rollNumber c0) (length recent) ->
             exists recent',
               matchHistory (runClient v evs c) = recent' ++ matchHistory c0 /\
               rollNumber (runClient v evs c)
               = (rollNumber c0 + Z.of_nat (length recent'))%Z /\
               map entry_rollNumber recent' = rollsFrom (rollNumber c0) (length recent')).
  { induction evs as [|ev evs IH]; intros c recent Hfl Hh Hr Hn.
    - exists recent. auto.
    - cbn [runClient].
      destruct (history_step v ev c c0 recent Hfl Hh Hr Hn) as (recent' & H1 & H2 & H3 & H4).
      apply (IH _ recent'); assumption. }
  apply (Hgen c0 []).
  - left. auto.
  - reflexivity.
  - cbn. lia.
  - reflexivity.
Qed.

(** X16 on ann's client through one round and into the next: the store
    refuses the completion, the round is entered in the local history all
    the same, as roll 8343, and the client shows 8344. *)
Lemma match_history_numbers_the_rounds_witness :
  map entry_rollNumber (matchHistory (runClient false oneRoundAndMore (clientOf "player-ann")))
  = [8343%Z] /\
  rollNumber (runClient false oneRoundAndMore (clientOf "player-ann")) = 8344%Z /\
  exists recent,
    matchHistory (runClient false oneRoundAndMore (clientOf "player-ann"))
    = recent ++ matchHistory (clientOf "player-ann") /\
    rollNumber (runClient false oneRoundAndMore (clientOf "player-ann"))
    = (rollNumber (clientOf "player-ann") + Z.of_nat (length recent))%Z /\
    map entry_rollNumber recent
    = rollsFrom (rollNumber (clientOf "player-ann")) (length recent).
Proof.
  split; [vm_compute; reflexivity|]. split; [vm_compute; reflexivity|].
  apply (match_history_numbers_the_rounds false oneRoundAndMore (clientOf "player-ann")).
  repeat split.
Defined.

(* ------------------------------------------------------------------ *)
(** ** What the entries of the match history record *)




(* ------------------------------------------------------------------ *)
(** ** Loading the current game *)

(** X17.  [getCurrentGame(rollNumber)] asks the store once for the waiting
    game and creates one only when there is none and [rollNumber] is
    positive; called with 0, as on mount and by the subscriptions, it never
    creates.  When it returns a game, that game is the current one, its
    participants replace the loaded ones (none for a game just created),
    and an error recorded earlier is not cleared.  When it returns null,
    the current game and the loaded participants are as they were. *)
Theorem getCurrentGame_loads_creates_or_leaves :
  forall (n : Z) (fetched : Resp (option GameRow)) (created : Resp GameRow) (c : Client),
    let out := getCurrentGame n fetched created c in
    (callsOf out = [GetCurrentGame] \/
     (fetched = Ok None /\ (0 < n)%Z /\ callsOf out = [GetCurrentGame; CreateGame n])) /\
    ((n <= 0)%Z -> callsOf out = [GetCurrentGame]) /\
    (forall g, resultOf out = Some g ->
               currentGameId (hook (stateOf out)) = Some (game_id g) /\
               dbPlayers (hook (stateOf out))
               = match fetched with Ok (Some _) => game_participants g | _ => [] end /\
               error (hook (stateOf out)) = error (hook c) /\
               (fetched = Ok (Some g) \/ (fetched = Ok None /\ created = Ok g))) /\
    (resultOf out = None ->
     currentGameId (hook (stateOf out)) = currentGameId (hook c) /\
     dbPlayers (hook (stateOf out)) = dbPlayers (hook c) /\
     (stateOf out = c \/ exists m, stateOf out = setError (Some m) c)).
Proof.
  intros n fetched created c out. subst out. unfold getCurrentGame.
  destruct fetched as [[g0|]|m|m].
  - cbn. split; [auto|]. split; [auto|]. split; [|discriminate].
    intros g Hg. injection Hg as <-. repeat split; auto.
  - destruct (negb (n =? 0)%Z && (n >? 0)%Z) eqn:Hn.
    + apply andb_true_iff in Hn as [_ Hn]. rewrite Z.gtb_ltb in Hn. apply Z.ltb_lt in Hn.
      destruct created as [g1|m|m]; cbn.
      * split; [auto|]. split; [lia|]. split; [|discriminate].
        intros g Hg. injection Hg as <-. repeat split; auto.
      * split; [auto|]. split; [lia|]. split; [discriminate|]. eauto.
      * split; [auto|]. split; [lia|]. split; [discriminate|]. eauto.
    + cbn. split; [auto|]. split; [auto|]. split; [discriminate|]. auto.
  - cbn. split; [auto|]. split; [auto|]. split; [discriminate|]. eauto.
  - cbn. split; [auto|]. split; [auto|]. split; [discriminate|]. eauto.
Qed.

(** X17 on a fresh client: with roll number 0 nothing is created; with
    8343 the game the store creates becomes the current one. *)
Lemma getCurrentGame_loads_creates_or_leaves_witness :
  callsOf (getCurrentGame 0 (Ok None) (Ok game1) initialClient) = [GetCurrentGame] /\
  currentGameId (hook (stateOf (getCurrentGame 8343 (Ok None) (Ok game1) initialClient)))
  = Some "game-1" /\
  dbPlayers (hook (stateOf (getCurrentGame 8343 (Ok None) (Ok game1) initialClient))) = [].
Proof.
  destruct (getCurrentGame_loads_creates_or_leaves 0 (Ok None) (Ok game1) initialClient)
    as (_ & Hzero & _).
  destruct (getCurrentGame_loads_creates_or_leaves 8343 (Ok None) (Ok game1) initialClient)
    as (_ & _ & Hsome & _).
  destruct (Hsome game1 eq_refl) as (Hid & Hdb & _).
  split; [apply Hzero; lia|]. split; [exact Hid|exact Hdb].
Defined.

(* ------------------------------------------------------------------ *)
(** ** Participants as the loaders transform them *)

Lemma orElse_not_empty (a : option string) (b : string) : b <> "" -> orElse a b <> "".
Proof.
  intros Hb. unfold orElse. destruct a as [s|]; [|exact Hb].
  destruct (s =? "") eqn:E; [exact Hb|]. apply String.eqb_neq. exact E.
Qed.

(** X18.  A participant the loaders transform always has a name: the
    username, else the first name, else "Unknown" (so two participants
    whose player rows lack both are listed under the same name).  Its
    [gifts] array holds one emoji per gift staked: as many as the
    quantities of its entries add up to, entries with a quantity that is
    not positive adding none, and each of them a non-empty string. *)
Theorem transformed_participant_has_a_name_and_its_gifts :
  forall (players' : option PlayersRow) (entries : list GiftEntryRow),
    participantName players' <> "" /\
    (players' = None -> participantName players' = "Unknown") /\
    Z.of_nat (length (participantGifts (Some entries)))
    = fold_right (fun e n => (Z.max 0 (giftEntry_quantity e) + n)%Z) 0%Z entries /\
    Forall (fun emoji' => emoji' <> "") (participantGifts (Some entries)) /\
    participantGifts None = [].
Proof.
  intros players' entries. split; [|split; [|split; [|split]]].
  - unfold participantName. destruct players' as [row|]; [|discriminate].
    apply orElse_not_empty, orElse_not_empty. discriminate.
  - intros ->. reflexivity.
  - unfold participantGifts. induction entries as [|e l IH]; [reflexivity|].
    cbn [flat_map fold_right]. rewrite length_app, repeat_length, Nat2Z.inj_add, IH.
    lia.
  - unfold participantGifts. induction entries as [|e l IH]; [constructor|].
    cbn [flat_map]. apply Forall_app. split; [|exact IH].
    apply Forall_forall. intros x Hx. apply repeat_spec in Hx. subst x.
    apply orElse_not_empty. discriminate.
  - reflexivity.
Qed.

(* ------------------------------------------------------------------ *)
(** ** The store's inventory and the local one *)








(* ------------------------------------------------------------------ *)
(** ** The timer line *)

(** Every number below 100 is padded to two characters that read back as
    the number: checked on each of them. *)
Lemma two_digits_read_back (n : Z) :
  (0 <= n < 100)%Z ->
  exists a b : ascii,
    padStart 2 "0" (toString n) = String a (String b EmptyString) /\
    parseInt (String a (String b EmptyString)) = Some n.
Proof.
  intros Hn.
  assert (Hall : forallb (fun k : nat =>
                   match padStart 2 "0" (toString (Z.of_nat k)) with
                   | String a (String b EmptyString) =>
                       match parseInt (String a (String b EmptyString)) with
                       | Some m => (m =? Z.of_nat k)%Z
                       | None => false
                       end
                   | _ => false
                   end) (seq 0 100) = true) by (vm_compute; reflexivity).
  rewrite forallb_forall in Hall.
  specialize (Hall (Z.to_nat n)). rewrite Z2Nat.id in Hall by lia.
  assert (Hin : In (Z.to_nat n) (seq 0 100)) by (apply in_seq; lia).
  specialize (Hall Hin).
  destruct (padStart 2 "0" (toString n)) as [|a [|b [|? ?]]]; try discriminate Hall.
  exists a, b. split; [reflexivity|].
  destruct (parseInt (String a (String b EmptyString))) as [m|]; [|discriminate Hall].
  apply Z.eqb_eq in Hall. congruence.
Qed.

(** X15.  For a time from 0 up to (not including) 100 minutes,
    [formatTime] yields five characters, two for the minutes, a colon and
    two for the seconds, and [parseInt] reads the minutes and the seconds
    back from them: whole seconds are shown, rounded down, seconds below
    60. *)
Theorem formatTime_reads_back :
  forall ms : Z,
    (0 <= ms < 6000000)%Z ->
    String.length (formatTime ms) = 5%nat /\
    get 2 (formatTime ms) = Some ":"%char /\
    parseInt (substring 0 2 (formatTime ms)) = Some (ms / 1000 / 60)%Z /\
    parseInt (substring 3 2 (formatTime ms)) = Some ((ms / 1000) mod 60)%Z /\
    (0 <= (ms / 1000) mod 60 < 60)%Z.
Proof.
  intros ms Hms. unfold formatTime.
  assert (Ht : (0 <= ms / 1000 < 6000)%Z).
  { split; [apply Z.div_pos; lia|apply Z.div_lt_upper_bound; lia]. }
  set (t := (ms / 1000)%Z) in *.
  assert (Hm : (0 <= t / 60 < 100)%Z).
  { split; [apply Z.div_pos; lia|apply Z.div_lt_upper_bound; lia]. }
  assert (Hs : (0 <= t mod 60 < 60)%Z) by (apply Z.mod_pos_bound; lia).
  rewrite Z.rem_mod_nonneg by lia.
  destruct (two_digits_read_back (t / 60)%Z Hm) as (a & b & -> & Hab).
  destruct (two_digits_read_back (t mod 60)%Z) as (a' & b' & -> & Hab'); [lia|].
  cbn [String.append String.length get substring].
  repeat split; auto; lia.
Qed.

(** X15 on 59.999 seconds and on one minute and a half. *)
Lemma formatTime_reads_back_witness :
  formatTime 59999 = "00:59" /\ formatTime 90000 = "01:30" /\
  parseInt (substring 0 2 (formatTime 90000)) = Some 1%Z /\
  parseInt (substring 3 2 (formatTime 90000)) = Some 30%Z.
Proof.
  destruct (formatTime_reads_back 90000) as (_ & _ & Hm & Hs & _); [lia|].
  split; [vm_compute; reflexivity|]. split; [vm_compute; reflexivity|].
  split; [exact Hm|exact Hs].
Defined.

(* ------------------------------------------------------------------ *)
(** ** The games a client asks the store to create *)
























